(** * Poker hand classification and scoring (PokerStruct-Edited.cpp)

    A shallow embedding of [struct Hand] and of its member functions
    [SortHand], [IsPair], [IsSet], [IsTwoPair], [IsStraight], [IsFlush],
    [IsFullHouse], [IsQuad], [IsStraightFlush] and [EvaluateHand], followed by
    the properties of the classification and of the score.

    Conventions of the embedding.
    - [std::vector<Card>] is a [list Card]; [Cards[i]] is the list lookup
      [Cards h !! i].  [operator[]] does no bounds check: reading past the
      end is undefined behaviour, which the embedding records as [None].  No
      member function throws or returns an error code, so [None] is the only
      way a function of the embedding does not yield a value.
    - [int] variables are [Z] (or [nat] for indices); every [int] of the
      program stays below 15, so no wrap-around can occur.
    - [EvaluateHand] returns a [double].  Every operand is an integer and
      every intermediate value is an integer of magnitude below [10 * 14^5],
      far below [2^53], so the floating-point sums and products are exact
      and the score is modelled as a [Z] ([pow(14, k)] is [14 ^ k]); see
      [EvaluateHand_integer_range].
    - The printing functions are not modelled.  [Deck] and the loop of
      [main] that deals a hand are modelled over the integer values of the
      cards (see [RawCard]), apart from the order that [Shuffle] picks; the
      two hands that [main] writes out are kept as examples. *)

From Stdlib Require Import ZArith Lia.
From stdpp Require Import base decidable option numbers list sorting.
From stdpp Require Import strings.

Local Open Scope Z_scope.

(** ** Cards *)

(** [enum class CardSuit].  Both enumerations of the source have an
    enumerator [Invalid]; they are told apart by a prefix here. *)
Inductive CardSuit : Set :=
  | SuitInvalid | Hearts | Diamonds | Spades | Clubs.

(** [enum class CardRank]. *)
Inductive CardRank : Set :=
  | RankInvalid
  | Two | Three | Four | Five | Six | Seven | Eight | Nine | Ten
  | Jack | Queen | King | Ace.

#[global] Instance CardSuit_eq_dec : EqDecision CardSuit.
Proof. solve_decision. Defined.

#[global] Instance CardRank_eq_dec : EqDecision CardRank.
Proof. solve_decision. Defined.

(** [static_cast<int>(rank)]: the enumerator values of [CardRank]. *)
Definition CardRank_int (r : CardRank) : Z :=
  match r with
  | RankInvalid => 0
  | Two => 2 | Three => 3 | Four => 4 | Five => 5 | Six => 6 | Seven => 7
  | Eight => 8 | Nine => 9 | Ten => 10
  | Jack => 11 | Queen => 12 | King => 13 | Ace => 14
  end.

(** [struct Card]. *)
Record Card : Set := Build_Card { Suit : CardSuit; Rank : CardRank }.

(** The constructor [Card(CardRank rank, CardSuit suit)]. *)
Definition MkCard (rank : CardRank) (suit : CardSuit) : Card :=
  {| Suit := suit; Rank := rank |}.

(** [enum class HandRank] and its enumerator values ([Set] is a reserved
    word, hence [Set_]). *)
Inductive HandRank : Set :=
  | StraightFlush | Quad | FullHouse | Flush | Straight | Set_ | TwoPair
  | Pair | HighCard.

#[global] Instance HandRank_eq_dec : EqDecision HandRank.
Proof. solve_decision. Defined.

Definition HandRank_int (r : HandRank) : Z :=
  match r with
  | StraightFlush => 9 | Quad => 8 | FullHouse => 7 | Flush => 6
  | Straight => 5 | Set_ => 4 | TwoPair => 3 | Pair => 2 | HighCard => 1
  end.

(** [struct Hand].  The member [HandRank Rank] is never read nor written by
    any member function, so only [Cards] is kept. *)
Record Hand : Set := Build_Hand { Cards : list Card }.

(** [a == b] and [a != b] on the two enumerations. *)
Definition Rank_eqb (a b : CardRank) : bool := bool_decide (a = b).
Definition Suit_eqb (a b : CardSuit) : bool := bool_decide (a = b).

(** [static_cast<int>(Cards[i].Rank)]. *)
Definition rank_at (h : Hand) (i : nat) : option Z :=
  c ← Cards h !! i; Some (CardRank_int (Rank c)).

Definition hand_of (cs : list Card) : Hand := {| Cards := cs |}.

(** ** The sorter: [Hand::SortHand] *)

(** The inner loop of the insertion sort together with the store that
    follows it:
<<
    while (j >= 0 && (int)Cards[j].Rank > (int)key.Rank) {
        Cards[j + 1] = Cards[j];  --j;
    }
    Cards[j + 1] = key;
>>
    The argument [k] stands for [j + 1], so [k = 0] is [j = -1], where the
    test [j >= 0] fails.  [j] is always a valid index here; the [None] branch
    is never taken (see [SortHand_shift_spec]). *)
Fixpoint SortHand_shift (key : Card) (k : nat) (cs : list Card) : list Card :=
  match k with
  | O => <[O := key]> cs
  | S j =>
      match cs !! j with
      | Some c =>
          if CardRank_int (Rank c) >? CardRank_int (Rank key)
          then SortHand_shift key j (<[S j := c]> cs)
          else <[S j := key]> cs
      | None => cs
      end
  end.

(** The outer loop [for (int i = 1; i < Cards.size(); ++i)], with [n] the
    number of iterations that remain ([n = Cards.size() - i]). *)
Fixpoint SortHand_loop (n : nat) (i : nat) (cs : list Card) : list Card :=
  match n with
  | O => cs
  | S n' =>
      match cs !! i with
      | Some key => SortHand_loop n' (S i) (SortHand_shift key i cs)
      | None => cs
      end
  end.

Definition SortHand (h : Hand) : Hand :=
  {| Cards := SortHand_loop (length (Cards h) - 1) 1 (Cards h) |}.

(** ** The classifier *)

(** [IsPair]: the loop [for (int i = 0; i < 4; ++i)] counts the adjacent
    positions of equal rank; [n] is the number of iterations that remain. *)
Fixpoint IsPair_loop (n : nat) (h : Hand) (i : nat) (pairCount : Z) : option Z :=
  match n with
  | O => Some pairCount
  | S n' =>
      a ← Cards h !! i;
      b ← Cards h !! (i + 1)%nat;
      IsPair_loop n' h (i + 1)
        (if Rank_eqb (Rank a) (Rank b) then pairCount + 1 else pairCount)
  end.

Definition IsPair (h : Hand) : option bool :=
  pairCount ← IsPair_loop 4 h 0 0; Some (pairCount =? 1).

(** [IsSet]: [for (int i = 0; i < 3; ++i)] counts the windows of three
    equal ranks.  [&&] evaluates its right operand, and so reads
    [Cards[i + 2]], only when the left one holds. *)
Fixpoint IsSet_loop (n : nat) (h : Hand) (i : nat) (count : Z) : option Z :=
  match n with
  | O => Some count
  | S n' =>
      a ← Cards h !! i;
      b ← Cards h !! (i + 1)%nat;
      if Rank_eqb (Rank a) (Rank b) then
        c ← Cards h !! (i + 2)%nat;
        IsSet_loop n' h (i + 1)
          (if Rank_eqb (Rank b) (Rank c) then count + 1 else count)
      else IsSet_loop n' h (i + 1) count
  end.

Definition IsSet (h : Hand) : option bool :=
  count ← IsSet_loop 3 h 0 0; Some (count =? 1).

(** [IsTwoPair]: the body of [for (int i = 0; i < 4; ++i)] advances [i]
    itself after a match, so the loop test is kept explicit and the
    recursion is on [fuel].  Four iterations at most are possible; see
    [IsTwoPair_loop_fuel]. *)
Fixpoint IsTwoPair_loop (fuel : nat) (h : Hand) (i : nat) (count : Z) : option Z :=
  if (i <? 4)%nat then
    match fuel with
    | O => None
    | S fuel' =>
        a ← Cards h !! i;
        b ← Cards h !! (i + 1)%nat;
        if Rank_eqb (Rank a) (Rank b)
        then IsTwoPair_loop fuel' h (i + 1 + 1) (count + 1)
        else IsTwoPair_loop fuel' h (i + 1) count
    end
  else Some count.

Definition IsTwoPair (h : Hand) : option bool :=
  count ← IsTwoPair_loop 4 h 0 0; Some (count =? 2).

(** [IsStraight]: returns [false] at the first adjacent position whose ranks
    are not consecutive. *)
Fixpoint IsStraight_loop (n : nat) (h : Hand) (i : nat) : option bool :=
  match n with
  | O => Some true
  | S n' =>
      a ← Cards h !! i;
      b ← Cards h !! (i + 1)%nat;
      if negb (CardRank_int (Rank a) + 1 =? CardRank_int (Rank b))
      then Some false
      else IsStraight_loop n' h (i + 1)
  end.

Definition IsStraight (h : Hand) : option bool := IsStraight_loop 4 h 0.

(** [IsFlush]: returns [false] at the first adjacent position whose suits
    differ. *)
Fixpoint IsFlush_loop (n : nat) (h : Hand) (i : nat) : option bool :=
  match n with
  | O => Some true
  | S n' =>
      a ← Cards h !! i;
      b ← Cards h !! (i + 1)%nat;
      if negb (Suit_eqb (Suit a) (Suit b))
      then Some false
      else IsFlush_loop n' h (i + 1)
  end.

Definition IsFlush (h : Hand) : option bool := IsFlush_loop 4 h 0.

(** [IsFullHouse]: [IsSet() && IsTwoPair()], the right operand being
    evaluated only when the left one is [true]. *)
Definition IsFullHouse (h : Hand) : option bool :=
  s ← IsSet h; if s : bool then IsTwoPair h else Some false.

(** [IsQuad]: [Cards[0].Rank == Cards[3].Rank || Cards[1].Rank ==
    Cards[4].Rank], the right operand being evaluated only when the left one
    is [false]. *)
Definition IsQuad (h : Hand) : option bool :=
  c0 ← Cards h !! 0%nat;
  c3 ← Cards h !! 3%nat;
  if Rank_eqb (Rank c0) (Rank c3) then Some true
  else
    c1 ← Cards h !! 1%nat;
    c4 ← Cards h !! 4%nat;
    Some (Rank_eqb (Rank c1) (Rank c4)).

(** [IsStraightFlush]: [IsStraight() && IsFlush()]. *)
Definition IsStraightFlush (h : Hand) : option bool :=
  s ← IsStraight h; if s : bool then IsFlush h else Some false.

(** ** The scorer: [Hand::EvaluateHand]

    The chain of [if … else if …] of the source, each branch with its own
    return expression.  The cards are read where the source reads them.  In
    the [IsFullHouse] branch the source text is
<<
        return 7 * pow(14, 5) + static_cast<int>(Cards[2].Rank) * pow(14, 4) +
       -        static_cast<int>(Cards[4].Rank);
>>
    that is, the last operand carries a unary minus. *)
Definition EvaluateHand (h : Hand) : option Z :=
  sf ← IsStraightFlush h;
  if sf : bool then
    r4 ← rank_at h 4; r3 ← rank_at h 3; r2 ← rank_at h 2;
    r1 ← rank_at h 1; r0 ← rank_at h 0;
    Some (9 * 14 ^ 5 + r4 * 14 ^ 4 + r3 * 14 ^ 3 + r2 * 14 ^ 2 + r1 * 14 ^ 1 + r0)
  else
  q ← IsQuad h;
  if q : bool then
    r3 ← rank_at h 3; r4 ← rank_at h 4;
    Some (8 * 14 ^ 5 + r3 * 14 ^ 4 + r4)
  else
  fh ← IsFullHouse h;
  if fh : bool then
    r2 ← rank_at h 2; r4 ← rank_at h 4;
    Some (7 * 14 ^ 5 + r2 * 14 ^ 4 + - r4)
  else
  fl ← IsFlush h;
  if fl : bool then
    r4 ← rank_at h 4; r3 ← rank_at h 3; r2 ← rank_at h 2;
    r1 ← rank_at h 1; r0 ← rank_at h 0;
    Some (6 * 14 ^ 5 + r4 * 14 ^ 4 + r3 * 14 ^ 3 + r2 * 14 ^ 2 + r1 * 14 ^ 1 + r0)
  else
  st ← IsStraight h;
  if st : bool then
    r4 ← rank_at h 4;
    Some (5 * 14 ^ 5 + r4)
  else
  se ← IsSet h;
  if se : bool then
    r2 ← rank_at h 2; r4 ← rank_at h 4;
    Some (4 * 14 ^ 5 + r2 * 14 ^ 4 + r4)
  else
  tp ← IsTwoPair h;
  if tp : bool then
    c0 ← Cards h !! 0%nat; c1 ← Cards h !! 1%nat;
    if negb (Rank_eqb (Rank c0) (Rank c1)) then
      r4 ← rank_at h 4; r2 ← rank_at h 2; r1 ← rank_at h 1;
      Some (3 * 14 ^ 5 + r4 * 14 ^ 4 + r2 * 14 ^ 3 + r1)
    else
      c2 ← Cards h !! 2%nat;
      if negb (Rank_eqb (Rank c1) (Rank c2)) then
        r4 ← rank_at h 4; r1 ← rank_at h 1; r2 ← rank_at h 2;
        Some (3 * 14 ^ 5 + r4 * 14 ^ 4 + r1 * 14 ^ 3 + r2)
      else
        r3 ← rank_at h 3; r1 ← rank_at h 1; r4 ← rank_at h 4;
        Some (3 * 14 ^ 5 + r3 * 14 ^ 4 + r1 * 14 ^ 3 + r4)
  else
  pr ← IsPair h;
  if pr : bool then
    c0 ← Cards h !! 0%nat; c1 ← Cards h !! 1%nat;
    if Rank_eqb (Rank c0) (Rank c1) then
      r0 ← rank_at h 0; r4 ← rank_at h 4; r3 ← rank_at h 3; r2 ← rank_at h 2;
      Some (2 * 14 ^ 5 + r0 * 14 ^ 4 + r4 * 14 ^ 3 + r3 * 14 ^ 2 + r2 * 14 ^ 1)
    else
      c2 ← Cards h !! 2%nat;
      if Rank_eqb (Rank c1) (Rank c2) then
        r1 ← rank_at h 1; r4 ← rank_at h 4; r3 ← rank_at h 3; r0 ← rank_at h 0;
        Some (2 * 14 ^ 5 + r1 * 14 ^ 4 + r4 * 14 ^ 3 + r3 * 14 ^ 2 + r0 * 14 ^ 1)
      else
        c3 ← Cards h !! 3%nat;
        if Rank_eqb (Rank c2) (Rank c3) then
          r3 ← rank_at h 3; r4 ← rank_at h 4; r1 ← rank_at h 1; r0 ← rank_at h 0;
          Some (2 * 14 ^ 5 + r3 * 14 ^ 4 + r4 * 14 ^ 3 + r1 * 14 ^ 2 + r0 * 14 ^ 1)
        else
          r3 ← rank_at h 3; r2 ← rank_at h 2; r1 ← rank_at h 1; r0 ← rank_at h 0;
          Some (2 * 14 ^ 5 + r3 * 14 ^ 4 + r2 * 14 ^ 3 + r1 * 14 ^ 2 + r0 * 14 ^ 1)
  else
    r4 ← rank_at h 4; r3 ← rank_at h 3; r2 ← rank_at h 2;
    r1 ← rank_at h 1; r0 ← rank_at h 0;
    Some (1 * 14 ^ 5 + r4 * 14 ^ 4 + r3 * 14 ^ 3 + r2 * 14 ^ 2 + r1 * 14 ^ 1 + r0).

(** The category a hand resolves to: the branch of the chain of
    [EvaluateHand] that is taken, named by the enumerator of [HandRank]
    whose value multiplies [pow(14, 5)] in that branch.  The tests are those
    of [EvaluateHand], in the same order (first match wins). *)
Definition ResolveRank (h : Hand) : option HandRank :=
  sf ← IsStraightFlush h;
  if sf : bool then Some StraightFlush else
  q ← IsQuad h;
  if q : bool then Some Quad else
  fh ← IsFullHouse h;
  if fh : bool then Some FullHouse else
  fl ← IsFlush h;
  if fl : bool then Some Flush else
  st ← IsStraight h;
  if st : bool then Some Straight else
  se ← IsSet h;
  if se : bool then Some Set_ else
  tp ← IsTwoPair h;
  if tp : bool then Some TwoPair else
  pr ← IsPair h;
  if pr : bool then Some Pair else Some HighCard.

(** The return expression of each branch of [EvaluateHand], by category:
    what the source has after [return] in the branch whose leading
    coefficient is [HandRank_int r]. *)
Definition branch_score (r : HandRank) (h : Hand) : option Z :=
  match r with
  | StraightFlush =>
      r4 ← rank_at h 4; r3 ← rank_at h 3; r2 ← rank_at h 2;
      r1 ← rank_at h 1; r0 ← rank_at h 0;
      Some (9 * 14 ^ 5 + r4 * 14 ^ 4 + r3 * 14 ^ 3 + r2 * 14 ^ 2 + r1 * 14 ^ 1 + r0)
  | Quad =>
      r3 ← rank_at h 3; r4 ← rank_at h 4;
      Some (8 * 14 ^ 5 + r3 * 14 ^ 4 + r4)
  | FullHouse =>
      r2 ← rank_at h 2; r4 ← rank_at h 4;
      Some (7 * 14 ^ 5 + r2 * 14 ^ 4 + - r4)
  | Flush =>
      r4 ← rank_at h 4; r3 ← rank_at h 3; r2 ← rank_at h 2;
      r1 ← rank_at h 1; r0 ← rank_at h 0;
      Some (6 * 14 ^ 5 + r4 * 14 ^ 4 + r3 * 14 ^ 3 + r2 * 14 ^ 2 + r1 * 14 ^ 1 + r0)
  | Straight =>
      r4 ← rank_at h 4;
      Some (5 * 14 ^ 5 + r4)
  | Set_ =>
      r2 ← rank_at h 2; r4 ← rank_at h 4;
      Some (4 * 14 ^ 5 + r2 * 14 ^ 4 + r4)
  | TwoPair =>
      c0 ← Cards h !! 0%nat; c1 ← Cards h !! 1%nat;
      if negb (Rank_eqb (Rank c0) (Rank c1)) then
        r4 ← rank_at h 4; r2 ← rank_at h 2; r1 ← rank_at h 1;
        Some (3 * 14 ^ 5 + r4 * 14 ^ 4 + r2 * 14 ^ 3 + r1)
      else
        c2 ← Cards h !! 2%nat;
        if negb (Rank_eqb (Rank c1) (Rank c2)) then
          r4 ← rank_at h 4; r1 ← rank_at h 1; r2 ← rank_at h 2;
          Some (3 * 14 ^ 5 + r4 * 14 ^ 4 + r1 * 14 ^ 3 + r2)
        else
          r3 ← rank_at h 3; r1 ← rank_at h 1; r4 ← rank_at h 4;
          Some (3 * 14 ^ 5 + r3 * 14 ^ 4 + r1 * 14 ^ 3 + r4)
  | Pair =>
      c0 ← Cards h !! 0%nat; c1 ← Cards h !! 1%nat;
      if Rank_eqb (Rank c0) (Rank c1) then
        r0 ← rank_at h 0; r4 ← rank_at h 4; r3 ← rank_at h 3; r2 ← rank_at h 2;
        Some (2 * 14 ^ 5 + r0 * 14 ^ 4 + r4 * 14 ^ 3 + r3 * 14 ^ 2 + r2 * 14 ^ 1)
      else
        c2 ← Cards h !! 2%nat;
        if Rank_eqb (Rank c1) (Rank c2) then
          r1 ← rank_at h 1; r4 ← rank_at h 4; r3 ← rank_at h 3; r0 ← rank_at h 0;
          Some (2 * 14 ^ 5 + r1 * 14 ^ 4 + r4 * 14 ^ 3 + r3 * 14 ^ 2 + r0 * 14 ^ 1)
        else
          c3 ← Cards h !! 3%nat;
          if Rank_eqb (Rank c2) (Rank c3) then
            r3 ← rank_at h 3; r4 ← rank_at h 4; r1 ← rank_at h 1; r0 ← rank_at h 0;
            Some (2 * 14 ^ 5 + r3 * 14 ^ 4 + r4 * 14 ^ 3 + r1 * 14 ^ 2 + r0 * 14 ^ 1)
          else
            r3 ← rank_at h 3; r2 ← rank_at h 2; r1 ← rank_at h 1; r0 ← rank_at h 0;
            Some (2 * 14 ^ 5 + r3 * 14 ^ 4 + r2 * 14 ^ 3 + r1 * 14 ^ 2 + r0 * 14 ^ 1)
  | HighCard =>
      r4 ← rank_at h 4; r3 ← rank_at h 3; r2 ← rank_at h 2;
      r1 ← rank_at h 1; r0 ← rank_at h 0;
      Some (1 * 14 ^ 5 + r4 * 14 ^ 4 + r3 * 14 ^ 3 + r2 * 14 ^ 2 + r1 * 14 ^ 1 + r0)
  end.

(** ** Vocabulary of the properties *)

(** The ranks of a hand, in the order of its cards. *)
Definition ranks (h : Hand) : list CardRank := Rank <$> Cards h.

(** Ascending order of two cards by rank value, the order [SortHand]
    compares with. *)
Definition Card_le (a b : Card) : Prop :=
  CardRank_int (Rank a) ≤ CardRank_int (Rank b).

(** A hand is rank-sorted when its cards are in non-decreasing rank order. *)
Definition rank_sorted (h : Hand) : Prop := StronglySorted Card_le (Cards h).

(** Number of cards of rank [r] in a hand. *)
Definition rank_count (r : CardRank) (h : Hand) : nat :=
  length (filter (λ c, Rank c = r) (Cards h)).

(** The count signature of a one-pair hand: one rank occurs exactly twice
    and no other rank occurs more than once. *)
Definition one_pair (h : Hand) : Prop :=
  ∃ r, rank_count r h = 2%nat ∧ ∀ r', r' ≠ r → (rank_count r' h ≤ 1)%nat.

(** Count signatures of the categories that contain a longer run or a
    second pair. *)
Definition three_of_a_kind (h : Hand) : Prop := ∃ r, rank_count r h = 3%nat.
Definition four_of_a_kind (h : Hand) : Prop := ∃ r, rank_count r h = 4%nat.
Definition two_pair (h : Hand) : Prop :=
  ∃ r r', r ≠ r' ∧ rank_count r h = 2%nat ∧ rank_count r' h = 2%nat.
Definition full_house (h : Hand) : Prop :=
  ∃ r r', rank_count r h = 3%nat ∧ rank_count r' h = 2%nat.

(** The claim of [IsPair] in terms of positions: the cards at [i] and
    [i + 1] have the same rank; such a pair is part of a longer run when the
    next or the previous position is a pair too; the hand has exactly one
    pair when one position is a pair, outside any longer run, and no other
    position is. *)
Definition adjacent_pair (h : Hand) (i : nat) : Prop :=
  ∃ r, ranks h !! i = Some r ∧ ranks h !! S i = Some r.
Definition in_longer_run (h : Hand) (i : nat) : Prop :=
  adjacent_pair h (S i) ∨ ∃ j, i = S j ∧ adjacent_pair h j.
Definition exactly_one_adjacent_pair (h : Hand) : Prop :=
  ∃ i, adjacent_pair h i ∧ ¬ in_longer_run h i ∧
       ∀ j, adjacent_pair h j → j = i.

(** [1] when the two cards have the same rank, else [0]. *)
Definition adj (a b : Card) : Z := if Rank_eqb (Rank a) (Rank b) then 1 else 0.

(** [1] when the card has rank [r], else [0]. *)
Definition has_rank (r : CardRank) (c : Card) : nat :=
  if decide (Rank c = r) then 1 else 0.

(** A hand is valid when none of its cards has the rank [Invalid]: every
    rank value is in [2, 14]. *)
Definition valid_hand (h : Hand) : Prop :=
  Forall (λ c, Rank c ≠ RankInvalid) (Cards h).

(** Lower and upper bounds of the return expression of each branch when
    every rank value is in [2, 14]. *)
Definition score_lo (r : HandRank) : Z :=
  match r with
  | StraightFlush => 9 * 14 ^ 5 + 2 * 14 ^ 4
  | Quad => 8 * 14 ^ 5 + 2 * 14 ^ 4
  | FullHouse => 7 * 14 ^ 5 + 2 * 14 ^ 4 - 14
  | Flush => 6 * 14 ^ 5 + 2 * 14 ^ 4
  | Straight => 5 * 14 ^ 5 + 2
  | Set_ => 4 * 14 ^ 5 + 2 * 14 ^ 4
  | TwoPair => 3 * 14 ^ 5 + 2 * 14 ^ 4
  | Pair => 2 * 14 ^ 5 + 2 * 14 ^ 4
  | HighCard => 1 * 14 ^ 5 + 2 * 14 ^ 4
  end.

Definition score_hi (r : HandRank) : Z :=
  match r with
  | StraightFlush => 9 * 14 ^ 5 + 14 * (14 ^ 4 + 14 ^ 3 + 14 ^ 2 + 14 + 1)
  | Quad => 8 * 14 ^ 5 + 14 * 14 ^ 4 + 14
  | FullHouse => 7 * 14 ^ 5 + 14 * 14 ^ 4 - 2
  | Flush => 6 * 14 ^ 5 + 14 * (14 ^ 4 + 14 ^ 3 + 14 ^ 2 + 14 + 1)
  | Straight => 5 * 14 ^ 5 + 14
  | Set_ => 4 * 14 ^ 5 + 14 * 14 ^ 4 + 14
  | TwoPair => 3 * 14 ^ 5 + 14 * 14 ^ 4 + 14 * 14 ^ 3 + 14
  | Pair => 2 * 14 ^ 5 + 14 * (14 ^ 4 + 14 ^ 3 + 14 ^ 2 + 14)
  | HighCard => 1 * 14 ^ 5 + 14 * (14 ^ 4 + 14 ^ 3 + 14 ^ 2 + 14 + 1)
  end.

(** The first five cards of a hand. *)
Definition first_five (h : Hand) : Hand := hand_of (take 5 (Cards h)).

(** ** Hands used in the examples *)

(** The two hands of [main], as written there (before sorting). *)
Definition main_hand : Hand :=
  hand_of [MkCard Ace Hearts; MkCard King Diamonds; MkCard Queen Spades;
           MkCard Jack Clubs; MkCard Ten Hearts].
Definition main_hand1 : Hand :=
  hand_of [MkCard King Hearts; MkCard King Diamonds; MkCard King Spades;
           MkCard Ten Clubs; MkCard Ten Hearts].

(** The four layouts, on hands with the same kickers. *)
Definition pair_hand_01 : Hand :=
  hand_of [MkCard Two Hearts; MkCard Two Clubs; MkCard Five Diamonds;
           MkCard Nine Spades; MkCard King Hearts].
Definition pair_hand_12 : Hand :=
  hand_of [MkCard Two Hearts; MkCard Five Diamonds; MkCard Five Clubs;
           MkCard Nine Spades; MkCard King Hearts].
Definition pair_hand_23 : Hand :=
  hand_of [MkCard Two Hearts; MkCard Five Diamonds; MkCard Nine Spades;
           MkCard Nine Clubs; MkCard King Hearts].
Definition pair_hand_34 : Hand :=
  hand_of [MkCard Two Hearts; MkCard Five Diamonds; MkCard Nine Spades;
           MkCard King Clubs; MkCard King Hearts].

Definition low_straight : Hand :=
  hand_of [MkCard Two Hearts; MkCard Three Diamonds; MkCard Four Spades;
           MkCard Five Clubs; MkCard Six Hearts].
Definition set_of_aces : Hand :=
  hand_of [MkCard Seven Hearts; MkCard Eight Diamonds; MkCard Ace Hearts;
           MkCard Ace Diamonds; MkCard Ace Spades].

Definition full_house_low_triple : Hand :=
  hand_of [MkCard King Hearts; MkCard King Diamonds; MkCard King Spades;
           MkCard Ace Clubs; MkCard Ace Hearts].

Definition quad_high_kicker : Hand :=
  hand_of [MkCard Two Hearts; MkCard Two Diamonds; MkCard Two Spades;
           MkCard Two Clubs; MkCard King Hearts].
Definition quad_low_kicker : Hand :=
  hand_of [MkCard Two Hearts; MkCard King Hearts; MkCard King Diamonds;
           MkCard King Spades; MkCard King Clubs].

Definition two_pair_01_23 : Hand :=
  hand_of [MkCard Two Hearts; MkCard Two Diamonds; MkCard Three Spades;
           MkCard Three Clubs; MkCard Ace Hearts].
Definition two_pair_12_34 : Hand :=
  hand_of [MkCard Two Spades; MkCard Queen Hearts; MkCard Queen Diamonds;
           MkCard King Spades; MkCard King Clubs].
Definition two_pair_01_34 : Hand :=
  hand_of [MkCard Three Hearts; MkCard Three Diamonds; MkCard Seven Spades;
           MkCard King Hearts; MkCard King Diamonds].

Definition six_card_hand : Hand :=
  hand_of [MkCard Ten Hearts; MkCard Jack Clubs; MkCard Queen Spades;
           MkCard King Diamonds; MkCard Ace Hearts; MkCard Two Clubs].
Definition four_card_hand : Hand :=
  hand_of [MkCard Ten Hearts; MkCard Jack Clubs; MkCard Queen Spades;
           MkCard King Diamonds].

(** ** Further vocabulary *)

(** The cards of rank [r] of a list, in the order of the list. *)
Definition cards_of_rank (r : CardRank) (cs : list Card) : list Card :=
  filter (λ c, Rank c = r) cs.

(** [a.Rank == b.Rank] on two cards. *)
Definition same_rank (a b : Card) : bool := Rank_eqb (Rank a) (Rank b).

(** All the cards of the hand have one suit. *)
Definition one_suit (h : Hand) : Prop :=
  ∃ s, Forall (λ c, Suit c = s) (Cards h).

(** The rank values of the hand, in the order of its cards, are five
    consecutive integers. *)
Definition consecutive (h : Hand) : Prop :=
  ∃ v, CardRank_int <$> ranks h = [v; v + 1; v + 2; v + 3; v + 4].

(** Some rank is held by four cards or more. *)
Definition four_or_more (h : Hand) : Prop :=
  ∃ r, (4 ≤ rank_count r h)%nat.

(** No two cards have the same rank. *)
Definition all_different (h : Hand) : Prop :=
  ∀ r, (rank_count r h ≤ 1)%nat.

(** What each category means in terms of rank counts, suits and
    consecutive values. *)
Definition category_signature (r : HandRank) (h : Hand) : Prop :=
  match r with
  | StraightFlush => consecutive h ∧ one_suit h
  | Quad => four_or_more h
  | FullHouse => full_house h
  | Flush =>
      one_suit h ∧ ¬ consecutive h ∧ ¬ four_or_more h ∧ ¬ full_house h
  | Straight => consecutive h ∧ ¬ one_suit h
  | Set_ =>
      three_of_a_kind h ∧ ¬ full_house h ∧ ¬ one_suit h
  | TwoPair => two_pair h ∧ ¬ one_suit h
  | Pair => one_pair h ∧ ¬ one_suit h
  | HighCard =>
      all_different h ∧ ¬ one_suit h ∧ ¬ consecutive h
  end.

(** The wheel A-2-3-4-5, rank-sorted. *)
Definition wheel : Hand :=
  hand_of [MkCard Two Hearts; MkCard Three Diamonds; MkCard Four Spades;
           MkCard Five Clubs; MkCard Ace Hearts].

(** Lexicographic order on lists of integers of one length. *)
Fixpoint lex_lt (l1 l2 : list Z) : Prop :=
  match l1, l2 with
  | x :: l1', y :: l2' => x < y ∨ (x = y ∧ lex_lt l1' l2')
  | _, _ => False
  end.

(** The rank values of a hand from its last card down to its first: on a
    rank-sorted hand, from the highest card down. *)
Definition ranks_from_top (h : Hand) : list Z :=
  reverse (CardRank_int <$> ranks h).

(** Every valid rank-sorted five-card hand of category [r1] outscores every
    such hand of category [r2]. *)
Definition always_outscores (r1 r2 : HandRank) : Prop :=
  ∀ h1 h2 s1 s2,
    length (Cards h1) = 5%nat → valid_hand h1 → rank_sorted h1 →
    length (Cards h2) = 5%nat → valid_hand h2 → rank_sorted h2 →
    ResolveRank h1 = Some r1 → ResolveRank h2 = Some r2 →
    EvaluateHand h1 = Some s1 → EvaluateHand h2 = Some s2 → s2 < s1.

(** Two high-card hands that differ in their lowest card only. *)
Definition high_card_2 : Hand :=
  hand_of [MkCard Two Hearts; MkCard Five Diamonds; MkCard Nine Spades;
           MkCard Jack Clubs; MkCard King Hearts].
Definition high_card_3 : Hand :=
  hand_of [MkCard Three Hearts; MkCard Five Clubs; MkCard Nine Hearts;
           MkCard Jack Spades; MkCard King Diamonds].

(** Three kings above two lower cards. *)
Definition set_low_triple : Hand :=
  hand_of [MkCard Two Hearts; MkCard Five Diamonds; MkCard King Hearts;
           MkCard King Diamonds; MkCard King Spades].

(** ** The names of the ranks and of the suits *)



(** ** The deck *)

(** The enumerator values of [CardSuit]. *)
Definition CardSuit_int (s : CardSuit) : Z :=
  match s with
  | SuitInvalid => 0 | Hearts => 1 | Diamonds => 2 | Spades => 3 | Clubs => 4
  end.

(** [struct Card] by the integer values of its two members.  The
    constructor of [Deck] casts integers to the two enumerations, the rank
    [1] among them, which is the value of no enumerator of [CardRank]; the
    cards of a deck are therefore kept by their values. *)
Record RawCard : Set := Build_RawCard { RawSuit : Z; RawRank : Z }.

#[global] Instance RawCard_eq_dec : EqDecision RawCard.
Proof. solve_decision. Defined.

(** The values of a card, and the card of two values when both are values
    of enumerators. *)
Definition Card_raw (c : Card) : RawCard :=
  {| RawSuit := CardSuit_int (Suit c); RawRank := CardRank_int (Rank c) |}.

Definition CardRank_of_int (v : Z) : option CardRank :=
  if v =? 0 then Some RankInvalid else if v =? 2 then Some Two
  else if v =? 3 then Some Three else if v =? 4 then Some Four
  else if v =? 5 then Some Five else if v =? 6 then Some Six
  else if v =? 7 then Some Seven else if v =? 8 then Some Eight
  else if v =? 9 then Some Nine else if v =? 10 then Some Ten
  else if v =? 11 then Some Jack else if v =? 12 then Some Queen
  else if v =? 13 then Some King else if v =? 14 then Some Ace
  else None.

Definition CardSuit_of_int (v : Z) : option CardSuit :=
  if v =? 0 then Some SuitInvalid else if v =? 1 then Some Hearts
  else if v =? 2 then Some Diamonds else if v =? 3 then Some Spades
  else if v =? 4 then Some Clubs else None.

Definition Card_of_raw (c : RawCard) : option Card :=
  rank ← CardRank_of_int (RawRank c);
  suit ← CardSuit_of_int (RawSuit c);
  Some (MkCard rank suit).

(** [Card()]: both members [Invalid]. *)
Definition Card_default : RawCard := {| RawSuit := 0; RawRank := 0 |}.

(** The constructor of [Deck], before the call of [Shuffle]:
<<
    int i = 0;
    for (int suit = 1; suit <= 4; suit++)
        for (int rank = 1; rank <= 13; rank++, i++)
            deck[i] = Card((CardRank)rank, (CardSuit)suit);
>>
    on a vector of 52 cards [Card()].  [n] counts the iterations that
    remain. *)
Fixpoint Deck_fill_ranks (n : nat) (suit rank : Z) (i : nat)
    (deck : list RawCard) : nat * list RawCard :=
  match n with
  | O => (i, deck)
  | S n' =>
      Deck_fill_ranks n' suit (rank + 1) (S i)
        (<[i := {| RawSuit := suit; RawRank := rank |}]> deck)
  end.

Fixpoint Deck_fill_suits (n : nat) (suit : Z) (i : nat)
    (deck : list RawCard) : list RawCard :=
  match n with
  | O => deck
  | S n' =>
      let '(i', deck') := Deck_fill_ranks 13 suit 1 i deck in
      Deck_fill_suits n' (suit + 1) i' deck'
  end.

Definition Deck_cards : list RawCard :=
  Deck_fill_suits 4 1 0 (replicate 52 Card_default).

(** [Shuffle] reorders the vector with [std::random_shuffle], seeded from
    the clock.  Which order comes out is not modelled: a deck as the
    constructor leaves it is any reordering of [Deck_cards]. *)
Definition Deck_constructed (deck : list RawCard) : Prop :=
  deck ≡ₚ Deck_cards.

(** [Deck::IsEmpty]. *)
Definition Deck_IsEmpty (deck : list RawCard) : bool :=
  bool_decide (deck = []).

(** [Deck::DrawCard]: the card drawn and the deck that is left.  On an empty
    deck the source also prints a message, which is not modelled. *)
Definition DrawCard (deck : list RawCard) : RawCard * list RawCard :=
  if Deck_IsEmpty deck then (Card_default, deck)
  else (default Card_default (last deck), take (length deck - 1) deck).

(** The loop of [main] that deals a hand,
    [for (int i = 0; i < 5; i++) hand.Cards[i] = deck.DrawCard();],
    with [n] the number of iterations that remain: the deck and the cards of
    the hand at the end. *)
Fixpoint deal_loop (n : nat) (i : nat) (deck cards : list RawCard)
    : list RawCard * list RawCard :=
  match n with
  | O => (deck, cards)
  | S n' =>
      let '(c, deck') := DrawCard deck in
      deal_loop n' (S i) deck' (<[i := c]> cards)
  end.

Definition deal (deck cards : list RawCard) : list RawCard * list RawCard :=
  deal_loop 5 0 deck cards.

(** ** Basic facts *)

Lemma CardRank_int_inj a b : CardRank_int a = CardRank_int b → a = b.
Proof. destruct a, b; simpl; intros H; first [reflexivity | discriminate H]. Qed.

Lemma CardRank_int_ne a b : a ≠ b → CardRank_int a ≠ CardRank_int b.
Proof. intros Hne Heq. apply Hne, CardRank_int_inj, Heq. Qed.

Lemma CardRank_int_range r : 0 ≤ CardRank_int r ≤ 14.
Proof. destruct r; simpl; lia. Qed.

(** Every enumerator except [Invalid] has a value in [2, 14]. *)
Lemma CardRank_int_valid r : r ≠ RankInvalid → 2 ≤ CardRank_int r ≤ 14.
Proof. destruct r; simpl; intros H; first [lia | congruence]. Qed.

Lemma HandRank_int_inj a b : HandRank_int a = HandRank_int b → a = b.
Proof. destruct a, b; simpl; intros H; first [reflexivity | discriminate H]. Qed.

(** The loop of [IsTwoPair] never runs out of fuel: once [fuel] covers the
    distance from [i] to the bound [4], more fuel changes nothing. *)
Lemma IsTwoPair_loop_fuel fuel h i count :
  (4 ≤ i + fuel)%nat →
  IsTwoPair_loop (S fuel) h i count = IsTwoPair_loop fuel h i count.
Proof.
  revert i count. induction fuel as [|fuel IH]; intros i count Hle.
  - simpl. destruct (i <? 4)%nat eqn:E; [|reflexivity].
    apply Nat.ltb_lt in E. lia.
  - change (IsTwoPair_loop (S (S fuel)) h i count) with
      (if (i <? 4)%nat then
         a ← Cards h !! i; b ← Cards h !! (i + 1)%nat;
         if Rank_eqb (Rank a) (Rank b)
         then IsTwoPair_loop (S fuel) h (i + 1 + 1) (count + 1)
         else IsTwoPair_loop (S fuel) h (i + 1) count
       else Some count).
    change (IsTwoPair_loop (S fuel) h i count) with
      (if (i <? 4)%nat then
         a ← Cards h !! i; b ← Cards h !! (i + 1)%nat;
         if Rank_eqb (Rank a) (Rank b)
         then IsTwoPair_loop fuel h (i + 1 + 1) (count + 1)
         else IsTwoPair_loop fuel h (i + 1) count
       else Some count).
    destruct (i <? 4)%nat; [|reflexivity].
    destruct (Cards h !! i) as [a|]; [|reflexivity].
    destruct (Cards h !! (i + 1)%nat) as [b|]; [|reflexivity].
    cbn -[IsTwoPair_loop].
    destruct (Rank_eqb (Rank a) (Rank b)); apply IH; lia.
Qed.

Lemma IsTwoPair_enough_fuel fuel h :
  (4 ≤ fuel)%nat → IsTwoPair_loop fuel h 0 0 = IsTwoPair_loop 4 h 0 0.
Proof.
  induction 1 as [|fuel Hle IH]; [reflexivity|].
  rewrite IsTwoPair_loop_fuel by lia. exact IH.
Qed.

(** [EvaluateHand] is the dispatch of [ResolveRank] followed by the return
    expression of the branch taken. *)
Lemma EvaluateHand_factor h :
  EvaluateHand h = r ← ResolveRank h; branch_score r h.
Proof.
  unfold EvaluateHand, ResolveRank.
  repeat match goal with
  | |- context [mbind _ (?P h)] =>
      lazymatch P with
      | rank_at => fail
      | _ => destruct (P h) as [[]|]; simpl; try reflexivity
      end
  end.
Qed.

Lemma EvaluateHand_resolved h r :
  ResolveRank h = Some r → EvaluateHand h = branch_score r h.
Proof. intros Hr. by rewrite EvaluateHand_factor, Hr. Qed.

(** What [ResolveRank] tells about the predicates: the tests before the
    branch taken failed, and its own test succeeded. *)
Lemma ResolveRank_inv h r :
  ResolveRank h = Some r →
  match r with
  | StraightFlush => IsStraightFlush h = Some true
  | Quad => IsStraightFlush h = Some false ∧ IsQuad h = Some true
  | FullHouse =>
      IsStraightFlush h = Some false ∧ IsQuad h = Some false ∧
      IsFullHouse h = Some true
  | Flush =>
      IsStraightFlush h = Some false ∧ IsQuad h = Some false ∧
      IsFullHouse h = Some false ∧ IsFlush h = Some true
  | Straight =>
      IsStraightFlush h = Some false ∧ IsQuad h = Some false ∧
      IsFullHouse h = Some false ∧ IsFlush h = Some false ∧
      IsStraight h = Some true
  | Set_ =>
      IsStraightFlush h = Some false ∧ IsQuad h = Some false ∧
      IsFullHouse h = Some false ∧ IsFlush h = Some false ∧
      IsStraight h = Some false ∧ IsSet h = Some true
  | TwoPair =>
      IsStraightFlush h = Some false ∧ IsQuad h = Some false ∧
      IsFullHouse h = Some false ∧ IsFlush h = Some false ∧
      IsStraight h = Some false ∧ IsSet h = Some false ∧
      IsTwoPair h = Some true
  | Pair =>
      IsStraightFlush h = Some false ∧ IsQuad h = Some false ∧
      IsFullHouse h = Some false ∧ IsFlush h = Some false ∧
      IsStraight h = Some false ∧ IsSet h = Some false ∧
      IsTwoPair h = Some false ∧ IsPair h = Some true
  | HighCard =>
      IsStraightFlush h = Some false ∧ IsQuad h = Some false ∧
      IsFullHouse h = Some false ∧ IsFlush h = Some false ∧
      IsStraight h = Some false ∧ IsSet h = Some false ∧
      IsTwoPair h = Some false ∧ IsPair h = Some false
  end.
Proof.
  unfold ResolveRank.
  destruct (IsStraightFlush h) as [[]|]; simpl; [by intros [= <-] | | done].
  destruct (IsQuad h) as [[]|]; simpl; [by intros [= <-] | | done].
  destruct (IsFullHouse h) as [[]|]; simpl; [by intros [= <-] | | done].
  destruct (IsFlush h) as [[]|]; simpl; [by intros [= <-] | | done].
  destruct (IsStraight h) as [[]|]; simpl; [by intros [= <-] | | done].
  destruct (IsSet h) as [[]|]; simpl; [by intros [= <-] | | done].
  destruct (IsTwoPair h) as [[]|]; simpl; [by intros [= <-] | | done].
  destruct (IsPair h) as [[]|]; simpl; [by intros [= <-] | by intros [= <-] | done].
Qed.

Example SortHand_main_hand :
  SortHand main_hand =
  hand_of [MkCard Ten Hearts; MkCard Jack Clubs; MkCard Queen Spades;
           MkCard King Diamonds; MkCard Ace Hearts].
Proof. reflexivity. Qed.

Example SortHand_main_hand1 :
  SortHand main_hand1 =
  hand_of [MkCard Ten Clubs; MkCard Ten Hearts; MkCard King Hearts;
           MkCard King Diamonds; MkCard King Spades].
Proof. reflexivity. Qed.

(** ** Five-card hands *)

Lemma five_cards h :
  length (Cards h) = 5%nat →
  ∃ c0 c1 c2 c3 c4, h = hand_of [c0; c1; c2; c3; c4].
Proof.
  destruct h as [cs]; simpl.
  destruct cs as [|c0 [|c1 [|c2 [|c3 [|c4 [|c5 cs]]]]]]; try discriminate.
  intros _. by exists c0, c1, c2, c3, c4.
Qed.

Lemma at_least_five_cards h :
  (5 ≤ length (Cards h))%nat →
  ∃ c0 c1 c2 c3 c4 rest, h = hand_of (c0 :: c1 :: c2 :: c3 :: c4 :: rest).
Proof.
  destruct h as [cs]; simpl.
  destruct cs as [|c0 [|c1 [|c2 [|c3 [|c4 rest]]]]]; simpl; try lia.
  intros _. by exists c0, c1, c2, c3, c4, rest.
Qed.

Section FiveCards.

Context (c0 c1 c2 c3 c4 : Card).

Lemma rank_sorted_five :
  rank_sorted (hand_of [c0; c1; c2; c3; c4]) ↔
  CardRank_int (Rank c0) ≤ CardRank_int (Rank c1) ∧
  CardRank_int (Rank c1) ≤ CardRank_int (Rank c2) ∧
  CardRank_int (Rank c2) ≤ CardRank_int (Rank c3) ∧
  CardRank_int (Rank c3) ≤ CardRank_int (Rank c4).
Proof.
  unfold rank_sorted, hand_of; simpl.
  rewrite !StronglySorted_cons, !Forall_cons, !Forall_nil.
  unfold Card_le. split; [intuition lia|].
  intros (?&?&?&?). repeat split; try lia. constructor.
Qed.

Lemma IsPair_five :
  IsPair (hand_of [c0; c1; c2; c3; c4]) =
  Some (adj c0 c1 + adj c1 c2 + adj c2 c3 + adj c3 c4 =? 1).
Proof.
  unfold IsPair, adj; cbn.
  by destruct (Rank_eqb (Rank c0) (Rank c1)), (Rank_eqb (Rank c1) (Rank c2)),
    (Rank_eqb (Rank c2) (Rank c3)), (Rank_eqb (Rank c3) (Rank c4)).
Qed.

Lemma IsPair_five_defined :
  ∃ b, IsPair (hand_of [c0; c1; c2; c3; c4]) = Some b.
Proof. rewrite IsPair_five. eauto. Qed.

Lemma rank_count_five r :
  rank_count r (hand_of [c0; c1; c2; c3; c4]) =
  (has_rank r c0 + has_rank r c1 + has_rank r c2 + has_rank r c3 +
   has_rank r c4)%nat.
Proof.
  unfold rank_count, has_rank; cbn [Cards hand_of].
  rewrite !filter_cons, filter_nil.
  repeat case_decide; simpl; lia.
Qed.

Lemma valid_hand_five :
  valid_hand (hand_of [c0; c1; c2; c3; c4]) →
  2 ≤ CardRank_int (Rank c0) ≤ 14 ∧ 2 ≤ CardRank_int (Rank c1) ≤ 14 ∧
  2 ≤ CardRank_int (Rank c2) ≤ 14 ∧ 2 ≤ CardRank_int (Rank c3) ≤ 14 ∧
  2 ≤ CardRank_int (Rank c4) ≤ 14.
Proof.
  unfold valid_hand, hand_of; simpl.
  rewrite !Forall_cons. intros (?&?&?&?&?&_).
  repeat split; by apply CardRank_int_valid.
Qed.

(** On five cards [IsFlush] answers whether all the cards have one suit. *)
Lemma IsFlush_five :
  ∃ b, IsFlush (hand_of [c0; c1; c2; c3; c4]) = Some b ∧
       (b = true ↔ ∃ s, Forall (λ c, Suit c = s) [c0; c1; c2; c3; c4]).
Proof.
  unfold IsFlush; cbn; unfold Suit_eqb.
  repeat case_bool_decide; cbn; eexists; (split; [reflexivity|]);
    (split; [try discriminate; intros _; exists (Suit c0);
             repeat constructor; congruence
            | intros [s Hs]; rewrite !Forall_cons in Hs;
              destruct Hs as (?&?&?&?&?&_); first [reflexivity | congruence]]).
Qed.

(** On five cards the loop of [IsTwoPair] ends within its fuel and no read
    is out of range. *)
Lemma IsTwoPair_five_defined :
  ∃ b, IsTwoPair (hand_of [c0; c1; c2; c3; c4]) = Some b.
Proof.
  unfold IsTwoPair; cbn.
  repeat match goal with
  | |- context [Rank_eqb ?a ?b] => destruct (Rank_eqb a b); cbn
  end; eauto.
Qed.

Lemma ResolveRank_five_defined :
  ∃ r, ResolveRank (hand_of [c0; c1; c2; c3; c4]) = Some r.
Proof.
  unfold ResolveRank, IsStraightFlush, IsFullHouse, IsStraight, IsFlush,
    IsQuad, IsSet, IsTwoPair, IsPair; cbn.
  repeat match goal with
  | |- context [Rank_eqb ?a ?b] => destruct (Rank_eqb a b); cbn
  | |- context [Suit_eqb ?a ?b] => destruct (Suit_eqb a b); cbn
  | |- context [Z.eqb ?a ?b] => destruct (Z.eqb a b); cbn
  end; eauto.
Qed.

Lemma branch_score_five_defined r :
  ∃ s, branch_score r (hand_of [c0; c1; c2; c3; c4]) = Some s.
Proof.
  destruct r; unfold branch_score, rank_at; cbn -[Z.pow Z.mul Z.add];
    repeat match goal with
    | |- context [Rank_eqb ?a ?b] => destruct (Rank_eqb a b)
    end; cbn -[Z.pow Z.mul Z.add]; eauto.
Qed.

(** A hand of five cards always resolves to a category and gets a score. *)
Lemma EvaluateHand_five_defined :
  ∃ r s, ResolveRank (hand_of [c0; c1; c2; c3; c4]) = Some r ∧
         EvaluateHand (hand_of [c0; c1; c2; c3; c4]) = Some s.
Proof.
  destruct ResolveRank_five_defined as [r Hr].
  destruct (branch_score_five_defined r) as [s Hs].
  exists r, s. split; [exact Hr|].
  by rewrite EvaluateHand_factor, Hr.
Qed.

End FiveCards.

(** Replace a five-card hand by its five cards, each card by its two fields,
    and a sortedness hypothesis by the four inequalities between adjacent
    rank values. *)
Ltac open_hand h Hlen :=
  let c0 := fresh "c0" in let c1 := fresh "c1" in let c2 := fresh "c2" in
  let c3 := fresh "c3" in let c4 := fresh "c4" in
  destruct (five_cards h Hlen) as (c0 & c1 & c2 & c3 & c4 & ->);
  repeat match goal with
  | H : rank_sorted (hand_of _) |- _ =>
      apply rank_sorted_five in H; destruct H as (? & ? & ? & ?)
  end;
  destruct c0 as [?s0 ?r0], c1 as [?s1 ?r1], c2 as [?s2 ?r2],
           c3 as [?s3 ?r3], c4 as [?s4 ?r4];
  cbn [Suit Rank] in *.

(** Turn the equalities and disequalities between ranks that are in the
    context into facts about their integer values, for [lia]. *)
Ltac ranks_to_int :=
  repeat match goal with
  | H : @eq CardRank ?a ?b |- _ => apply (f_equal CardRank_int) in H
  | H : not (@eq CardRank ?a ?b) |- _ => apply CardRank_int_ne in H
  end.

(** ** The one-pair category *)

Lemma has_rank_eq r c : Rank c = r → has_rank r c = 1%nat.
Proof. unfold has_rank. intros. by rewrite decide_True. Qed.

Lemma has_rank_ne r c : Rank c ≠ r → has_rank r c = 0%nat.
Proof. unfold has_rank. intros. by rewrite decide_False. Qed.

(** A rank held three times or more rules out the one-pair signature, and
    so do two different ranks held twice or more. *)
Lemma one_pair_no_triple h r :
  (3 ≤ rank_count r h)%nat → ¬ one_pair h.
Proof.
  intros H3 (x & Hx & Hother).
  destruct (decide (r = x)) as [->|Hne]; [lia|].
  specialize (Hother r Hne). lia.
Qed.

Lemma one_pair_no_second_pair h r r' :
  r ≠ r' → (2 ≤ rank_count r h)%nat → (2 ≤ rank_count r' h)%nat →
  ¬ one_pair h.
Proof.
  intros Hne H2 H2' (x & Hx & Hother).
  destruct (decide (r = x)) as [->|Hr].
  - assert (r' ≠ x) as Hr' by congruence. specialize (Hother r' Hr'). lia.
  - specialize (Hother r Hr). lia.
Qed.

(** Settle the [has_rank] terms of the goal whose card is known to have, or
    known not to have, the rank asked for. *)
Ltac settle_has_rank :=
  repeat match goal with
  | |- context [has_rank ?r ?c] =>
      first [ rewrite (has_rank_eq r c) by (cbn [Rank]; congruence)
            | rewrite (has_rank_ne r c)
                by (cbn [Rank]; intros ?; ranks_to_int; lia) ]
  end.

Lemma IsPair_one_pair h :
  length (Cards h) = 5%nat → rank_sorted h →
  IsPair h = Some true ↔ one_pair h.
Proof.
  intros Hlen Hs.
  destruct (five_cards h Hlen) as (c0 & c1 & c2 & c3 & c4 & ->).
  pose proof Hs as Hs'.
  apply rank_sorted_five in Hs'. destruct Hs' as (?&?&?&?).
  rewrite IsPair_five. unfold adj, Rank_eqb.
  split.
  - intros Hp. unfold one_pair. setoid_rewrite rank_count_five.
    repeat case_bool_decide; try discriminate Hp; clear Hp;
    [ exists (Rank c0) | exists (Rank c1) | exists (Rank c2) | exists (Rank c3) ];
    (split;
     [ settle_has_rank; reflexivity
     | intros r' Hr'; unfold has_rank;
       repeat case_decide; ranks_to_int; lia ]).
  - intros Hone.
    repeat case_bool_decide; try reflexivity; exfalso; revert Hone;
    first
      [ apply (one_pair_no_triple _ (Rank c2));
        rewrite rank_count_five; settle_has_rank; lia
      | apply (one_pair_no_second_pair _ (Rank c1) (Rank c3));
        [ intros ?; ranks_to_int; lia
        | rewrite rank_count_five; settle_has_rank; lia
        | rewrite rank_count_five; settle_has_rank; lia ]
      | intros (x & Hx & _); rewrite rank_count_five in Hx;
        unfold has_rank in Hx; repeat case_decide; ranks_to_int; lia ].
Qed.

(** The positions of the adjacent pairs of a five-card hand. *)
Lemma adjacent_pair_five c0 c1 c2 c3 c4 i :
  adjacent_pair (hand_of [c0; c1; c2; c3; c4]) i ↔
  (i = 0%nat ∧ Rank c0 = Rank c1) ∨ (i = 1%nat ∧ Rank c1 = Rank c2) ∨
  (i = 2%nat ∧ Rank c2 = Rank c3) ∨ (i = 3%nat ∧ Rank c3 = Rank c4).
Proof.
  unfold adjacent_pair, ranks; cbn [Cards hand_of].
  destruct i as [|[|[|[|i]]]]; cbn; split.
  all: try (intros (r & [= <-] & [= Heq]); naive_solver).
  all: try (intros (r & _ & [=])).
  all: intros [[? ?]|[[? ?]|[[? ?]|[? ?]]]]; try discriminate.
  all: eexists; split; [reflexivity | congruence].
Qed.

(** [IsPair] in terms of positions. *)
Lemma IsPair_adjacent h :
  length (Cards h) = 5%nat →
  IsPair h = Some true ↔ exactly_one_adjacent_pair h.
Proof.
  intros Hlen.
  destruct (five_cards h Hlen) as (c0 & c1 & c2 & c3 & c4 & ->).
  rewrite IsPair_five. unfold adj, Rank_eqb.
  unfold exactly_one_adjacent_pair, in_longer_run.
  setoid_rewrite adjacent_pair_five.
  split.
  - intros Hp.
    repeat case_bool_decide; try discriminate Hp; clear Hp;
    [ exists 0%nat | exists 1%nat | exists 2%nat | exists 3%nat ];
    (split; [intuition congruence|]);
    (split; [|intros j; intuition (first [congruence | lia])]);
    intros [?|(j & [= <-] & ?)]; intuition (first [congruence | lia]).
  - intros (i & Hi & Hrun & Huniq).
    repeat case_bool_decide; try reflexivity; exfalso.
    all: try (pose proof (Huniq 0%nat) as U0); try (pose proof (Huniq 1%nat) as U1);
         try (pose proof (Huniq 2%nat) as U2); try (pose proof (Huniq 3%nat) as U3).
    all: intuition (first [congruence | lia]).
Qed.

Lemma three_of_a_kind_not_one_pair h : three_of_a_kind h → ¬ one_pair h.
Proof. intros [r Hr]. apply (one_pair_no_triple h r). lia. Qed.

Lemma four_of_a_kind_not_one_pair h : four_of_a_kind h → ¬ one_pair h.
Proof. intros [r Hr]. apply (one_pair_no_triple h r). lia. Qed.

Lemma two_pair_not_one_pair h : two_pair h → ¬ one_pair h.
Proof.
  intros (r & r' & Hne & Hr & Hr').
  apply (one_pair_no_second_pair h r r' Hne); lia.
Qed.

Lemma full_house_not_one_pair h : full_house h → ¬ one_pair h.
Proof. intros (r & _ & Hr & _). apply (one_pair_no_triple h r). lia. Qed.

(** C7.  On a rank-sorted five-card hand [IsPair] answers [true] exactly
    when one adjacent position holds two cards of equal rank, that pair is
    not part of a longer run and no other adjacent position holds a pair;
    equivalently, exactly when the hand holds one pair and nothing more: one
    rank occurs twice and every other rank once.  In particular it answers
    [false] on every hand with three of a kind, four of a kind, two pairs or
    a full house. *)
Theorem IsPair_exactly_one_pair h :
  length (Cards h) = 5%nat → rank_sorted h →
  (IsPair h = Some true ↔ exactly_one_adjacent_pair h) ∧
  (IsPair h = Some true ↔ one_pair h) ∧
  (IsPair h = Some false ↔ ¬ one_pair h) ∧
  (three_of_a_kind h → IsPair h = Some false) ∧
  (four_of_a_kind h → IsPair h = Some false) ∧
  (two_pair h → IsPair h = Some false) ∧
  (full_house h → IsPair h = Some false).
Proof.
  intros Hlen Hs.
  pose proof (IsPair_one_pair h Hlen Hs) as Hiff.
  assert (∃ b, IsPair h = Some b) as [b Hb].
  { destruct (five_cards h Hlen) as (c0 & c1 & c2 & c3 & c4 & ->).
    apply IsPair_five_defined. }
  assert (IsPair h = Some false ↔ ¬ one_pair h) as Hneg.
  { rewrite <- Hiff, Hb. destruct b; split; congruence. }
  split; [by apply IsPair_adjacent|].
  split; [exact Hiff|]. split; [exact Hneg|].
  repeat split; intros Hsig; apply Hneg.
  - by apply three_of_a_kind_not_one_pair.
  - by apply four_of_a_kind_not_one_pair.
  - by apply two_pair_not_one_pair.
  - by apply full_house_not_one_pair.
Qed.

Lemma IsPair_exactly_one_pair_witness :
  (IsPair pair_hand_23 = Some true ↔ exactly_one_adjacent_pair pair_hand_23) ∧
  (IsPair pair_hand_23 = Some true ↔ one_pair pair_hand_23) ∧
  (IsPair pair_hand_23 = Some false ↔ ¬ one_pair pair_hand_23) ∧
  (three_of_a_kind pair_hand_23 → IsPair pair_hand_23 = Some false) ∧
  (four_of_a_kind pair_hand_23 → IsPair pair_hand_23 = Some false) ∧
  (two_pair pair_hand_23 → IsPair pair_hand_23 = Some false) ∧
  (full_house pair_hand_23 → IsPair pair_hand_23 = Some false).
Proof.
  apply (IsPair_exactly_one_pair pair_hand_23);
    [reflexivity | apply rank_sorted_five; simpl; lia].
Defined.

(** ** Scores of one-pair hands *)

(** C6.  A rank-sorted five-card hand that resolves to [Pair], with its pair
    at the adjacent positions [i] and [i + 1] (whichever of the four layouts
    that is) and the three other cards of ranks [k0], [k1], [k2] in hand
    order, scores [2 * 14^5 + pair * 14^4 + k2 * 14^3 + k1 * 14^2 + k0 * 14],
    and [k2 > k1 > k0]: the pair first, then the kickers in descending
    order. *)
Theorem EvaluateHand_Pair_score h i p k0 k1 k2 :
  length (Cards h) = 5%nat → rank_sorted h → ResolveRank h = Some Pair →
  ranks h !! i = Some p → ranks h !! S i = Some p →
  take i (ranks h) ++ drop (S (S i)) (ranks h) = [k0; k1; k2] →
  EvaluateHand h =
    Some (2 * 14 ^ 5 + CardRank_int p * 14 ^ 4 + CardRank_int k2 * 14 ^ 3 +
          CardRank_int k1 * 14 ^ 2 + CardRank_int k0 * 14 ^ 1) ∧
  CardRank_int k0 < CardRank_int k1 < CardRank_int k2 ∧
  p ≠ k0 ∧ p ≠ k1 ∧ p ≠ k2.
Proof.
  intros Hlen Hs Hres Hi HSi Hrest.
  rewrite (EvaluateHand_resolved _ _ Hres).
  apply ResolveRank_inv in Hres. destruct Hres as (_&_&_&_&_&_&_&Hp).
  open_hand h Hlen. rewrite IsPair_five in Hp.
  unfold adj, Rank_eqb, ranks in *. cbn [Cards hand_of Rank fmap list_fmap] in *.
  destruct i as [|[|[|[|i]]]]; cbn in Hi, HSi, Hrest; [..|discriminate HSi];
    simplify_eq;
    unfold branch_score, rank_at; cbn; unfold Rank_eqb;
    repeat case_bool_decide; try discriminate Hp; try congruence;
    (split; [f_equal; lia | ranks_to_int; repeat split; try lia]);
    intros Heq; apply (f_equal CardRank_int) in Heq; lia.
Qed.

Example EvaluateHand_pair_layouts :
  EvaluateHand pair_hand_01 = Some (2 * 14 ^ 5 + 2 * 14 ^ 4 + 13 * 14 ^ 3 + 9 * 14 ^ 2 + 5 * 14) ∧
  EvaluateHand pair_hand_12 = Some (2 * 14 ^ 5 + 5 * 14 ^ 4 + 13 * 14 ^ 3 + 9 * 14 ^ 2 + 2 * 14) ∧
  EvaluateHand pair_hand_23 = Some (2 * 14 ^ 5 + 9 * 14 ^ 4 + 13 * 14 ^ 3 + 5 * 14 ^ 2 + 2 * 14) ∧
  EvaluateHand pair_hand_34 = Some (2 * 14 ^ 5 + 13 * 14 ^ 4 + 9 * 14 ^ 3 + 5 * 14 ^ 2 + 2 * 14).
Proof. repeat split; reflexivity. Qed.

Lemma EvaluateHand_Pair_score_witness :
  EvaluateHand pair_hand_23 =
    Some (2 * 14 ^ 5 + CardRank_int Nine * 14 ^ 4 + CardRank_int King * 14 ^ 3 +
          CardRank_int Five * 14 ^ 2 + CardRank_int Two * 14 ^ 1) ∧
  CardRank_int Two < CardRank_int Five < CardRank_int King ∧
  Nine ≠ Two ∧ Nine ≠ Five ∧ Nine ≠ King.
Proof.
  apply (EvaluateHand_Pair_score pair_hand_23 2 Nine Two Five King);
    [reflexivity | apply rank_sorted_five; simpl; lia | reflexivity ..].
Defined.

(** ** Bounds of the score, by category *)

Lemma branch_score_bounds r h :
  length (Cards h) = 5%nat → valid_hand h →
  ∃ s, branch_score r h = Some s ∧ score_lo r ≤ s ≤ score_hi r.
Proof.
  intros Hlen Hv.
  destruct (five_cards h Hlen) as (c0 & c1 & c2 & c3 & c4 & ->).
  apply valid_hand_five in Hv. destruct Hv as (?&?&?&?&?).
  destruct r; unfold branch_score, rank_at; cbn -[Z.pow Z.mul Z.add];
    repeat match goal with
    | |- context [Rank_eqb ?a ?b] => destruct (Rank_eqb a b)
    end;
    cbn -[Z.pow Z.mul Z.add]; (eexists; split; [reflexivity|]);
    unfold score_lo, score_hi; lia.
Qed.

(** The score of a valid five-card hand lies within the bounds of its
    category. *)
Lemma EvaluateHand_bounds h r :
  length (Cards h) = 5%nat → valid_hand h → ResolveRank h = Some r →
  ∃ s, EvaluateHand h = Some s ∧ score_lo r ≤ s ≤ score_hi r.
Proof.
  intros Hlen Hv Hr. rewrite (EvaluateHand_resolved h r Hr).
  by apply branch_score_bounds.
Qed.

(** Every score of a five-card hand is a positive integer below [2^53], and
    so is every partial sum that leads to it (the terms are non-negative,
    but for the last one of the full house): a [double] holds them
    exactly. *)
Lemma EvaluateHand_integer_range h s :
  length (Cards h) = 5%nat → EvaluateHand h = Some s → 0 < s < 2 ^ 53.
Proof.
  intros Hlen. rewrite EvaluateHand_factor.
  destruct (ResolveRank h) as [r|]; [|discriminate]. cbn [mbind option_bind].
  destruct (five_cards h Hlen) as (c0 & c1 & c2 & c3 & c4 & ->).
  pose proof (CardRank_int_range (Rank c0)).
  pose proof (CardRank_int_range (Rank c1)).
  pose proof (CardRank_int_range (Rank c2)).
  pose proof (CardRank_int_range (Rank c3)).
  pose proof (CardRank_int_range (Rank c4)).
  destruct r; unfold branch_score, rank_at; cbn -[Z.pow Z.mul Z.add];
    repeat match goal with
    | |- context [Rank_eqb ?a ?b] => destruct (Rank_eqb a b)
    end;
    cbn -[Z.pow Z.mul Z.add]; intros [= <-]; lia.
Qed.

(** Every stronger category outscores every weaker one, whatever the
    kickers, but for one pair of categories: [Straight] against [Set_]. *)
Lemma category_order_except_Straight_Set h1 h2 r1 r2 :
  length (Cards h1) = 5%nat → valid_hand h1 → ResolveRank h1 = Some r1 →
  length (Cards h2) = 5%nat → valid_hand h2 → ResolveRank h2 = Some r2 →
  HandRank_int r2 < HandRank_int r1 →
  ¬ (r1 = Straight ∧ r2 = Set_) →
  ∃ s1 s2, EvaluateHand h1 = Some s1 ∧ EvaluateHand h2 = Some s2 ∧ s2 < s1.
Proof.
  intros Hl1 Hv1 Hr1 Hl2 Hv2 Hr2 Hlt Hex.
  destruct (EvaluateHand_bounds h1 r1 Hl1 Hv1 Hr1) as (s1 & Hs1 & Hb1).
  destruct (EvaluateHand_bounds h2 r2 Hl2 Hv2 Hr2) as (s2 & Hs2 & Hb2).
  exists s1, s2. split; [exact Hs1|]. split; [exact Hs2|].
  destruct r1, r2; simpl in Hlt; try lia;
    try (exfalso; apply Hex; split; reflexivity);
    unfold score_lo, score_hi in *; lia.
Qed.

(** ** Straight against three of a kind *)

(** C1.  The straight 2-3-4-5-6 and the three aces 7-8-A-A-A are both
    rank-sorted five-card hands; the first resolves to [Straight], the second
    to the weaker [Set_], and yet the second has the higher score:
    [4 * 14^5 + 14 * 14^4 + 14 = 5 * 14^5 + 14] against [5 * 14^5 + 6]. *)
Theorem Set_of_aces_outscores_Straight :
  rank_sorted low_straight ∧ valid_hand low_straight ∧
  rank_sorted set_of_aces ∧ valid_hand set_of_aces ∧
  ResolveRank low_straight = Some Straight ∧
  ResolveRank set_of_aces = Some Set_ ∧
  HandRank_int Set_ < HandRank_int Straight ∧
  EvaluateHand low_straight = Some (5 * 14 ^ 5 + 6) ∧
  EvaluateHand set_of_aces = Some (5 * 14 ^ 5 + 14) ∧
  ¬ (∃ s1 s2, EvaluateHand low_straight = Some s1 ∧
              EvaluateHand set_of_aces = Some s2 ∧ s1 > s2).
Proof.
  split; [apply rank_sorted_five; simpl; lia|].
  split; [repeat constructor; discriminate|].
  split; [apply rank_sorted_five; simpl; lia|].
  split; [repeat constructor; discriminate|].
  repeat split; try reflexivity.
  intros (s1 & s2 & H1 & H2 & Hgt).
  vm_compute in H1, H2. injection H1 as <-. injection H2 as <-. lia.
Qed.

(** The best straight only ties with three aces next to an ace-high card. *)
Example Straight_ace_high_ties_Set_of_aces :
  ResolveRank (SortHand main_hand) = Some Straight ∧
  EvaluateHand (SortHand main_hand) = EvaluateHand set_of_aces.
Proof. split; reflexivity. Qed.

(** ** Full house *)

(** What the [IsFullHouse] branch returns, for both layouts: the rank at
    position 2 (always a card of the triple) weighted by [14^4], minus the
    rank at position 4. *)
Lemma EvaluateHand_FullHouse h r2 r4 :
  ResolveRank h = Some FullHouse →
  ranks h !! 2%nat = Some r2 → ranks h !! 4%nat = Some r4 →
  EvaluateHand h =
    Some (7 * 14 ^ 5 + CardRank_int r2 * 14 ^ 4 - CardRank_int r4).
Proof.
  intros Hres H2 H4. rewrite (EvaluateHand_resolved _ _ Hres).
  unfold ranks in *. rewrite list_lookup_fmap in H2, H4.
  unfold branch_score, rank_at.
  destruct (Cards h !! 2%nat) as [c2|]; [|discriminate H2].
  destruct (Cards h !! 4%nat) as [c4|]; [|discriminate H4].
  simpl in *. simplify_eq. reflexivity.
Qed.

(** The same by layout, on rank-sorted five-card hands: with the triple
    [t] first the rank of the pair [p] is subtracted, with the pair first the
    rank of the triple is. *)
Lemma EvaluateHand_FullHouse_layouts h :
  length (Cards h) = 5%nat → rank_sorted h → ResolveRank h = Some FullHouse →
  ∃ t p,
    t ≠ p ∧
    ((ranks h = [t; t; t; p; p] ∧
      EvaluateHand h =
        Some (7 * 14 ^ 5 + CardRank_int t * 14 ^ 4 - CardRank_int p)) ∨
     (ranks h = [p; p; t; t; t] ∧
      EvaluateHand h =
        Some (7 * 14 ^ 5 + CardRank_int t * 14 ^ 4 - CardRank_int t))).
Proof.
  intros Hlen Hs Hres. rewrite (EvaluateHand_resolved _ _ Hres).
  apply ResolveRank_inv in Hres. destruct Hres as (_ & Hq & Hfh).
  open_hand h Hlen. clear Hlen.
  unfold IsFullHouse, IsQuad, IsSet, IsTwoPair in *. cbn in Hq, Hfh.
  unfold Rank_eqb in *.
  repeat case_bool_decide; cbn in Hq, Hfh;
    try discriminate; try congruence; clear Hq Hfh; subst;
    unfold ranks, branch_score, rank_at; cbn;
    eexists _, _; (split; [|
      first [ left; split; [reflexivity | f_equal; lia ]
            | right; split; [reflexivity | f_equal; lia ] ] ]);
    congruence.
Qed.

(** C2.  The hand of [main] K-K-K-10-10, sorted to 10-10-K-K-K, resolves to
    [FullHouse] and scores [7 * 14^5 + 13 * 14^4 - 13]: the rank of the
    triple is subtracted and the rank of the pair, 10, does not enter the
    score.  No positive weight [w] makes the score
    [7 * 14^5 + 13 * 14^4 + w * 10].  In the other layout, K-K-K-A-A, the
    rank of the pair is subtracted. *)
Theorem EvaluateHand_FullHouse_subtracts :
  rank_sorted (SortHand main_hand1) ∧
  ResolveRank (SortHand main_hand1) = Some FullHouse ∧
  EvaluateHand (SortHand main_hand1) = Some (7 * 14 ^ 5 + 13 * 14 ^ 4 - 13) ∧
  (∀ w, 0 < w →
     EvaluateHand (SortHand main_hand1) ≠
     Some (7 * 14 ^ 5 + 13 * 14 ^ 4 + w * 10)) ∧
  rank_sorted full_house_low_triple ∧
  ResolveRank full_house_low_triple = Some FullHouse ∧
  EvaluateHand full_house_low_triple = Some (7 * 14 ^ 5 + 13 * 14 ^ 4 - 14).
Proof.
  split; [apply rank_sorted_five; simpl; lia|].
  split; [reflexivity|]. split; [reflexivity|].
  split.
  { intros w Hw.
    replace (EvaluateHand (SortHand main_hand1))
      with (Some (7 * 14 ^ 5 + 13 * 14 ^ 4 - 13)) by reflexivity.
    intros [= Heq]. lia. }
  split; [apply rank_sorted_five; simpl; lia|].
  split; reflexivity.
Qed.

(** ** Four of a kind *)

(** What the [IsQuad] branch returns: the rank at position 3 (always a card
    of the four) weighted by [14^4], plus the rank at position 4. *)
Lemma EvaluateHand_Quad h r3 r4 :
  ResolveRank h = Some Quad →
  ranks h !! 3%nat = Some r3 → ranks h !! 4%nat = Some r4 →
  EvaluateHand h =
    Some (8 * 14 ^ 5 + CardRank_int r3 * 14 ^ 4 + CardRank_int r4).
Proof.
  intros Hres H3 H4. rewrite (EvaluateHand_resolved _ _ Hres).
  unfold ranks in *. rewrite list_lookup_fmap in H3, H4.
  unfold branch_score, rank_at.
  destruct (Cards h !! 3%nat) as [c3|]; [|discriminate H3].
  destruct (Cards h !! 4%nat) as [c4|]; [|discriminate H4].
  simpl in *. by simplify_eq.
Qed.

(** The same by layout, on rank-sorted five-card hands: the kicker [k]
    enters the score when it comes last, and the rank [q] of the four takes
    its place when it comes first. *)
Lemma EvaluateHand_Quad_layouts h :
  length (Cards h) = 5%nat → rank_sorted h → ResolveRank h = Some Quad →
  ∃ q k,
    (ranks h = [q; q; q; q; k] ∧
     EvaluateHand h =
       Some (8 * 14 ^ 5 + CardRank_int q * 14 ^ 4 + CardRank_int k)) ∨
    (ranks h = [k; q; q; q; q] ∧
     EvaluateHand h =
       Some (8 * 14 ^ 5 + CardRank_int q * 14 ^ 4 + CardRank_int q)).
Proof.
  intros Hlen Hs Hres. rewrite (EvaluateHand_resolved _ _ Hres).
  apply ResolveRank_inv in Hres. destruct Hres as (_ & Hq).
  open_hand h Hlen. clear Hlen.
  unfold IsQuad in *. cbn in Hq. unfold Rank_eqb in *.
  repeat case_bool_decide; try discriminate Hq; clear Hq; subst.
  - assert (r1 = r3) as -> by (apply CardRank_int_inj; lia).
    assert (r2 = r3) as -> by (apply CardRank_int_inj; lia).
    exists r3, r4. left. split; reflexivity.
  - assert (r2 = r4) as -> by (apply CardRank_int_inj; lia).
    assert (r3 = r4) as -> by (apply CardRank_int_inj; lia).
    exists r4, r0. right. split; reflexivity.
Qed.

(** C3.  With the four cards at positions 0-3 the kicker is at position 4
    and enters the score: 2-2-2-2-K scores [8 * 14^5 + 2 * 14^4 + 13].  With
    the four cards at positions 1-4 the kicker is at position 0 and does not
    enter it: 2-K-K-K-K scores [8 * 14^5 + 13 * 14^4 + 13], the rank of the
    four counted twice, and not [8 * 14^5 + 13 * 14^4 + 2]. *)
Theorem EvaluateHand_Quad_kicker_at_0 :
  rank_sorted quad_high_kicker ∧
  ResolveRank quad_high_kicker = Some Quad ∧
  EvaluateHand quad_high_kicker = Some (8 * 14 ^ 5 + 2 * 14 ^ 4 + 13) ∧
  rank_sorted quad_low_kicker ∧
  ResolveRank quad_low_kicker = Some Quad ∧
  rank_count King quad_low_kicker = 4%nat ∧
  ranks quad_low_kicker !! 0%nat = Some Two ∧
  EvaluateHand quad_low_kicker = Some (8 * 14 ^ 5 + 13 * 14 ^ 4 + 13) ∧
  EvaluateHand quad_low_kicker ≠ Some (8 * 14 ^ 5 + 13 * 14 ^ 4 + 2).
Proof.
  split; [apply rank_sorted_five; simpl; lia|].
  split; [reflexivity|]. split; [reflexivity|].
  split; [apply rank_sorted_five; simpl; lia|].
  repeat split; try reflexivity.
  intros Heq. vm_compute in Heq. discriminate Heq.
Qed.

(** ** Two pairs *)

(** What the [IsTwoPair] branch returns, by layout, on rank-sorted
    five-card hands ([a < b < c]; the pairs are named by their ranks).  The
    first layout gets higher pair, lower pair, kicker; in the second the
    kicker [c] has the weight [14^4] and the higher pair [b] the weight [1];
    in the third the lower pair [b] is added in place of the kicker [a]. *)
Lemma EvaluateHand_TwoPair h :
  length (Cards h) = 5%nat → rank_sorted h → ResolveRank h = Some TwoPair →
  ∃ a b c,
    CardRank_int a < CardRank_int b < CardRank_int c ∧
    ((ranks h = [a; a; b; c; c] ∧
      EvaluateHand h = Some (3 * 14 ^ 5 + CardRank_int c * 14 ^ 4 +
                             CardRank_int a * 14 ^ 3 + CardRank_int b)) ∨
     (ranks h = [a; a; b; b; c] ∧
      EvaluateHand h = Some (3 * 14 ^ 5 + CardRank_int c * 14 ^ 4 +
                             CardRank_int a * 14 ^ 3 + CardRank_int b)) ∨
     (ranks h = [a; b; b; c; c] ∧
      EvaluateHand h = Some (3 * 14 ^ 5 + CardRank_int c * 14 ^ 4 +
                             CardRank_int b * 14 ^ 3 + CardRank_int b))).
Proof.
  intros Hlen Hs Hres. rewrite (EvaluateHand_resolved _ _ Hres).
  apply ResolveRank_inv in Hres.
  destruct Hres as (_ & Hq & Hfh & _ & _ & Hset & Htp).
  open_hand h Hlen. clear Hlen.
  unfold IsFullHouse in Hfh. rewrite Hset in Hfh. clear Hfh.
  unfold IsQuad, IsSet, IsTwoPair in *. cbn in Hq, Hset, Htp.
  unfold Rank_eqb in *.
  repeat case_bool_decide; cbn in Hq, Hset, Htp;
    try discriminate; try congruence; clear Hq Hset Htp; subst;
    unfold ranks, branch_score, rank_at; cbn; unfold Rank_eqb;
    repeat case_bool_decide; try congruence; ranks_to_int;
    eexists _, _, _; (split; [|
      first [ left; split; [reflexivity | f_equal; lia ]
            | right; left; split; [reflexivity | f_equal; lia ]
            | right; right; split; [reflexivity | f_equal; lia ] ] ]);
    lia.
Qed.

(** C4.  Of the three layouts of two pairs, only the one with the kicker in
    the middle is scored as higher pair, lower pair, kicker.
    - Pairs at 0-1 and 3-4 (3-3-7-K-K): [3 * 14^5 + 13 * 14^4 + 3 * 14^3 + 7].
    - Pairs at 0-1 and 2-3 (2-2-3-3-A): the kicker A takes the weight
      [14^4] and the higher pair the weight [1]; the score is
      [3 * 14^5 + 14 * 14^4 + 2 * 14^3 + 3], not
      [3 * 14^5 + 3 * 14^4 + 2 * 14^3 + 14].
    - Pairs at 1-2 and 3-4 (2-Q-Q-K-K): the rank of the lower pair is added
      in place of the kicker; the score is
      [3 * 14^5 + 13 * 14^4 + 12 * 14^3 + 12], not [… + 2].
    So 2-2-3-3-A, whose higher pair is 3, outscores 2-Q-Q-K-K, whose higher
    pair is K. *)
Theorem EvaluateHand_TwoPair_layouts :
  (rank_sorted two_pair_01_34 ∧ ResolveRank two_pair_01_34 = Some TwoPair ∧
   EvaluateHand two_pair_01_34 = Some (3 * 14 ^ 5 + 13 * 14 ^ 4 + 3 * 14 ^ 3 + 7)) ∧
  (rank_sorted two_pair_01_23 ∧ ResolveRank two_pair_01_23 = Some TwoPair ∧
   EvaluateHand two_pair_01_23 = Some (3 * 14 ^ 5 + 14 * 14 ^ 4 + 2 * 14 ^ 3 + 3) ∧
   EvaluateHand two_pair_01_23 ≠ Some (3 * 14 ^ 5 + 3 * 14 ^ 4 + 2 * 14 ^ 3 + 14)) ∧
  (rank_sorted two_pair_12_34 ∧ ResolveRank two_pair_12_34 = Some TwoPair ∧
   EvaluateHand two_pair_12_34 = Some (3 * 14 ^ 5 + 13 * 14 ^ 4 + 12 * 14 ^ 3 + 12) ∧
   EvaluateHand two_pair_12_34 ≠ Some (3 * 14 ^ 5 + 13 * 14 ^ 4 + 12 * 14 ^ 3 + 2)) ∧
  (∃ s1 s2, EvaluateHand two_pair_01_23 = Some s1 ∧
            EvaluateHand two_pair_12_34 = Some s2 ∧ s2 < s1).
Proof.
  split; [|split; [|split]].
  - split; [apply rank_sorted_five; simpl; lia|]. split; reflexivity.
  - split; [apply rank_sorted_five; simpl; lia|].
    split; [reflexivity|]. split; [reflexivity|].
    intros Heq; vm_compute in Heq; discriminate Heq.
  - split; [apply rank_sorted_five; simpl; lia|].
    split; [reflexivity|]. split; [reflexivity|].
    intros Heq; vm_compute in Heq; discriminate Heq.
  - eexists _, _. split; [reflexivity|]. split; [reflexivity|]. reflexivity.
Qed.

(** ** The categories scored on five kickers *)

(** What the [IsStraightFlush], [IsFlush] and high-card branches return: the
    five ranks, the card at position 4 with the weight [14^4] down to the
    card at position 0 with the weight [1]. *)
Lemma EvaluateHand_five_kickers h r r0 r1 r2 r3 r4 :
  ResolveRank h = Some r →
  r = StraightFlush ∨ r = Flush ∨ r = HighCard →
  ranks h = [r0; r1; r2; r3; r4] →
  EvaluateHand h =
    Some (HandRank_int r * 14 ^ 5 + CardRank_int r4 * 14 ^ 4 +
          CardRank_int r3 * 14 ^ 3 + CardRank_int r2 * 14 ^ 2 +
          CardRank_int r1 * 14 ^ 1 + CardRank_int r0).
Proof.
  intros Hres Hr Hranks. rewrite (EvaluateHand_resolved _ _ Hres).
  destruct h as [cs]. unfold ranks in Hranks; simpl in Hranks.
  destruct cs as [|c0 [|c1 [|c2 [|c3 [|c4 [|c5 cs]]]]]]; try discriminate.
  injection Hranks as <- <- <- <- <-.
  destruct Hr as [-> | [-> | ->]]; reflexivity.
Qed.

(** What the [IsStraight] branch returns: the rank at position 4 with the
    weight [1], and nothing else. *)
Lemma EvaluateHand_Straight h r4 :
  ResolveRank h = Some Straight → ranks h !! 4%nat = Some r4 →
  EvaluateHand h = Some (5 * 14 ^ 5 + CardRank_int r4).
Proof.
  intros Hres H4. rewrite (EvaluateHand_resolved _ _ Hres).
  unfold ranks in *. rewrite list_lookup_fmap in H4.
  unfold branch_score, rank_at.
  destruct (Cards h !! 4%nat) as [c4|]; [|discriminate H4].
  simpl in *. by simplify_eq.
Qed.

(** C5.  The hand of [main] A-K-Q-J-10, sorted to 10-J-Q-K-A, resolves to
    [Straight] and scores [5 * 14^5 + 14]: only the top card enters the
    score, with the weight [1], and not the five ranks with the weights
    [14^4] down to [1]. *)
Theorem EvaluateHand_Straight_top_card_only :
  rank_sorted (SortHand main_hand) ∧
  ranks (SortHand main_hand) = [Ten; Jack; Queen; King; Ace] ∧
  ResolveRank (SortHand main_hand) = Some Straight ∧
  EvaluateHand (SortHand main_hand) = Some (5 * 14 ^ 5 + 14) ∧
  EvaluateHand (SortHand main_hand) ≠
    Some (5 * 14 ^ 5 + 14 * 14 ^ 4 + 13 * 14 ^ 3 + 12 * 14 ^ 2 + 11 * 14 ^ 1 + 10).
Proof.
  split; [apply rank_sorted_five; simpl; lia|].
  repeat split; try reflexivity.
  intros Heq; vm_compute in Heq; discriminate Heq.
Qed.

(** ** The sorter *)

#[global] Instance CardRank_int_Inj : Inj (=) (=) CardRank_int.
Proof. intros a b. apply CardRank_int_inj. Qed.

#[global] Instance Card_le_refl : Reflexive Card_le.
Proof. intros c. unfold Card_le. lia. Qed.

#[global] Instance Card_le_trans : Transitive Card_le.
Proof. intros a b c. unfold Card_le. lia. Qed.

(** The inner loop, started with [j = length l1 - 1] on a vector whose
    first [length l1] cards are [l1]: the cards of [l1] of rank above
    [key] move one position up and [key] lands below them, whatever card
    [x] was at position [length l1].  No read is out of range. *)
Lemma SortHand_shift_spec key l1 x l2 :
  ∃ a b,
    l1 = a ++ b ∧
    SortHand_shift key (length l1) (l1 ++ x :: l2) = a ++ key :: b ++ l2 ∧
    Forall (λ c, CardRank_int (Rank key) < CardRank_int (Rank c)) b ∧
    (∀ c, last a = Some c → Card_le c key).
Proof.
  revert x l2. induction l1 as [|c l1 IH] using rev_ind; intros x l2.
  - exists [], []. split; [reflexivity|]. split; [reflexivity|].
    split; [constructor | discriminate].
  - rewrite length_app, Nat.add_1_r, <- app_assoc. cbn [app SortHand_shift].
    rewrite list_lookup_middle by reflexivity.
    rewrite Z.gtb_ltb.
    destruct (Z.ltb_spec (CardRank_int (Rank key)) (CardRank_int (Rank c)))
      as [Hgt|Hle].
    + replace (S (length l1)) with (length l1 + 1)%nat by lia.
      rewrite insert_app_r. cbn [insert list_insert].
      destruct (IH c (c :: l2)) as (a & b & -> & Hshift & Hb & Ha).
      exists a, (b ++ [c]). rewrite Hshift, <- !app_assoc.
      split; [reflexivity|]. split; [reflexivity|]. split; [|exact Ha].
      apply Forall_app. split; [exact Hb|].
      by repeat constructor.
    + replace (S (length l1)) with (length l1 + 1)%nat by lia.
      rewrite insert_app_r. cbn [insert list_insert].
      exists (l1 ++ [c]), []. rewrite <- !app_assoc, app_nil_r.
      split; [reflexivity|]. split; [reflexivity|]. split; [constructor|].
      intros c'. rewrite last_snoc. intros [= <-]. unfold Card_le. lia.
Qed.

Lemma StronglySorted_last c l :
  StronglySorted Card_le l → last l = Some c → Forall (λ x, Card_le x c) l.
Proof.
  intros Hs Hlast. apply last_Some in Hlast as [l' ->].
  apply StronglySorted_app in Hs as (Hle & _ & _).
  apply Forall_app. split.
  - apply Forall_forall. intros x Hx. apply Hle; [exact Hx | by left].
  - by repeat constructor.
Qed.

(** The outer loop, entered at [i = length pre] with the cards before [i]
    sorted, leaves the whole vector sorted and only moves its cards. *)
Lemma SortHand_loop_spec post pre :
  StronglySorted Card_le pre →
  StronglySorted Card_le (SortHand_loop (length post) (length pre) (pre ++ post)) ∧
  SortHand_loop (length post) (length pre) (pre ++ post) ≡ₚ pre ++ post.
Proof.
  revert pre. induction post as [|key post IH]; intros pre Hpre.
  - simpl. by rewrite app_nil_r.
  - cbn [length SortHand_loop].
    rewrite list_lookup_middle by reflexivity.
    destruct (SortHand_shift_spec key pre key post)
      as (a & b & -> & -> & Hb & Ha).
    apply StronglySorted_app in Hpre as (Hab & Hsa & Hsb).
    assert (StronglySorted Card_le (a ++ key :: b)) as Hnew.
    { apply StronglySorted_app_2; [|exact Hsa|].
      - intros x1 x2 Hx1 Hx2.
        apply elem_of_cons in Hx2 as [->|Hx2]; [|by apply Hab].
        destruct (last a) as [c|] eqn:Hlast.
        + pose proof (StronglySorted_last c a Hsa Hlast) as Hall.
          rewrite Forall_forall in Hall.
          transitivity c; [by apply Hall | by apply Ha].
        + apply last_None in Hlast. subst a. by apply elem_of_nil in Hx1.
      - constructor; [exact Hsb|].
        eapply Forall_impl; [exact Hb|]. intros c Hc; cbv beta in Hc.
        unfold Card_le. lia. }
    replace (S (length (a ++ b))) with (length (a ++ key :: b))
      by (rewrite !length_app; simpl; lia).
    replace (a ++ key :: b ++ post) with ((a ++ key :: b) ++ post)
      by (by rewrite <- app_assoc).
    destruct (IH _ Hnew) as [Hsorted Hperm].
    split; [exact Hsorted|].
    rewrite Hperm, <- !app_assoc. simpl.
    by rewrite (Permutation_middle b post key).
Qed.

(** [SortHand] leaves the hand in non-decreasing rank order … *)
Lemma SortHand_sorted h : rank_sorted (SortHand h).
Proof.
  destruct h as [[|c post]]; unfold rank_sorted, SortHand; simpl.
  - constructor.
  - rewrite Nat.sub_0_r.
    apply (SortHand_loop_spec post [c]). by repeat constructor.
Qed.

(** … with the same cards. *)
Lemma SortHand_perm h : Cards (SortHand h) ≡ₚ Cards h.
Proof.
  destruct h as [[|c post]]; unfold SortHand; simpl.
  - reflexivity.
  - rewrite Nat.sub_0_r.
    apply (SortHand_loop_spec post [c]). by repeat constructor.
Qed.

Lemma SortHand_length h : length (Cards (SortHand h)) = length (Cards h).
Proof. by rewrite SortHand_perm. Qed.

(** ** Independence of the order of the cards before sorting *)

(** Two rank-sorted hands with the same cards have the same ranks at the
    same positions (the suits of cards of equal rank may be ordered
    differently). *)
Lemma rank_sorted_ranks_unique h1 h2 :
  rank_sorted h1 → rank_sorted h2 → Cards h1 ≡ₚ Cards h2 →
  ranks h1 = ranks h2.
Proof.
  unfold rank_sorted, ranks. intros Hs1 Hs2 Hperm.
  apply (inj (fmap CardRank_int)).
  rewrite <- !list_fmap_compose.
  apply (StronglySorted_unique Z.le).
  - apply (StronglySorted_fmap _ Card_le); [|exact Hs1]. by intros x y Hxy.
  - apply (StronglySorted_fmap _ Card_le); [|exact Hs2]. by intros x y Hxy.
  - by rewrite Hperm.
Qed.

Lemma IsFlush_perm h1 h2 :
  length (Cards h1) = 5%nat → Cards h1 ≡ₚ Cards h2 → IsFlush h1 = IsFlush h2.
Proof.
  intros Hl1 Hperm.
  assert (length (Cards h2) = 5%nat) as Hl2 by (by rewrite <- Hperm).
  destruct (five_cards h1 Hl1) as (c0 & c1 & c2 & c3 & c4 & ->).
  destruct (five_cards h2 Hl2) as (d0 & d1 & d2 & d3 & d4 & ->).
  destruct (IsFlush_five c0 c1 c2 c3 c4) as (b1 & -> & Hb1).
  destruct (IsFlush_five d0 d1 d2 d3 d4) as (b2 & -> & Hb2).
  simpl in Hperm. f_equal.
  assert (b1 = true ↔ b2 = true) as Hiff.
  { rewrite Hb1, Hb2. by setoid_rewrite Hperm. }
  destruct b1, b2; intuition congruence.
Qed.

(** Apart from [IsFlush], the predicates and the return expressions only
    read the ranks. *)
Lemma ranks_only h1 h2 :
  length (Cards h1) = 5%nat → ranks h1 = ranks h2 →
  IsStraight h1 = IsStraight h2 ∧ IsQuad h1 = IsQuad h2 ∧
  IsSet h1 = IsSet h2 ∧ IsTwoPair h1 = IsTwoPair h2 ∧
  IsPair h1 = IsPair h2 ∧ ∀ r, branch_score r h1 = branch_score r h2.
Proof.
  intros Hl1 Hranks.
  assert (length (Cards h2) = 5%nat) as Hl2.
  { apply (f_equal length) in Hranks. unfold ranks in Hranks.
    rewrite !length_fmap in Hranks. congruence. }
  destruct (five_cards h1 Hl1) as (c0 & c1 & c2 & c3 & c4 & ->).
  destruct (five_cards h2 Hl2) as (d0 & d1 & d2 & d3 & d4 & ->).
  destruct c0, c1, c2, c3, c4, d0, d1, d2, d3, d4.
  unfold ranks in Hranks; cbn in Hranks. simplify_eq.
  repeat split; reflexivity.
Qed.

Lemma ResolveRank_ranks_flush h1 h2 :
  length (Cards h1) = 5%nat → ranks h1 = ranks h2 → IsFlush h1 = IsFlush h2 →
  ResolveRank h1 = ResolveRank h2 ∧ EvaluateHand h1 = EvaluateHand h2.
Proof.
  intros Hl1 Hranks Hflush.
  destruct (ranks_only h1 h2 Hl1 Hranks) as (Hst & Hq & Hse & Htp & Hp & Hbs).
  assert (ResolveRank h1 = ResolveRank h2) as Hres.
  { unfold ResolveRank, IsStraightFlush, IsFullHouse.
    by rewrite Hst, Hq, Hse, Htp, Hp, Hflush. }
  split; [exact Hres|].
  rewrite !EvaluateHand_factor, Hres.
  destruct (ResolveRank h2) as [r|]; simpl; [apply Hbs | reflexivity].
Qed.

(** C8.  Two five-card hands with the same cards in any two orders, each
    sorted by [SortHand], resolve to one category and get one score (and
    both are defined). *)
Theorem SortHand_EvaluateHand_permutation h1 h2 :
  length (Cards h1) = 5%nat → Cards h1 ≡ₚ Cards h2 →
  ResolveRank (SortHand h1) = ResolveRank (SortHand h2) ∧
  EvaluateHand (SortHand h1) = EvaluateHand (SortHand h2) ∧
  ∃ r s, ResolveRank (SortHand h1) = Some r ∧
         EvaluateHand (SortHand h1) = Some s.
Proof.
  intros Hlen Hperm.
  assert (length (Cards (SortHand h1)) = 5%nat) as Hlen'
    by (by rewrite SortHand_length).
  assert (Cards (SortHand h1) ≡ₚ Cards (SortHand h2)) as Hperm'
    by (by rewrite !SortHand_perm).
  destruct (ResolveRank_ranks_flush (SortHand h1) (SortHand h2)) as [Hr He].
  - exact Hlen'.
  - apply rank_sorted_ranks_unique; [apply SortHand_sorted.. | exact Hperm'].
  - by apply IsFlush_perm.
  - split; [exact Hr|]. split; [exact He|].
    destruct (five_cards _ Hlen') as (c0 & c1 & c2 & c3 & c4 & ->).
    apply EvaluateHand_five_defined.
Qed.

Lemma SortHand_EvaluateHand_permutation_witness :
  ResolveRank (SortHand main_hand1) =
    ResolveRank (SortHand (hand_of (reverse (Cards main_hand1)))) ∧
  EvaluateHand (SortHand main_hand1) =
    EvaluateHand (SortHand (hand_of (reverse (Cards main_hand1)))) ∧
  ∃ r s, ResolveRank (SortHand main_hand1) = Some r ∧
         EvaluateHand (SortHand main_hand1) = Some s.
Proof.
  apply (SortHand_EvaluateHand_permutation main_hand1
           (hand_of (reverse (Cards main_hand1)))).
  - reflexivity.
  - simpl. symmetry. apply reverse_Permutation.
Defined.

(** ** Hands of another size *)

(** No member function reads a card beyond position 4. *)
Lemma ResolveRank_first_five h :
  (5 ≤ length (Cards h))%nat → ResolveRank h = ResolveRank (first_five h).
Proof.
  intros Hlen.
  destruct (at_least_five_cards h Hlen) as (c0 & c1 & c2 & c3 & c4 & rest & ->).
  reflexivity.
Qed.

Lemma branch_score_first_five r h :
  (5 ≤ length (Cards h))%nat → branch_score r h = branch_score r (first_five h).
Proof.
  intros Hlen.
  destruct (at_least_five_cards h Hlen) as (c0 & c1 & c2 & c3 & c4 & rest & ->).
  destruct r; reflexivity.
Qed.

(** C9, as the code has it.  [EvaluateHand] does not look at the size of the
    hand and has no error to signal: a hand of five cards or more is
    resolved and scored as its first five cards are, the cards after them
    being ignored. *)
Theorem EvaluateHand_first_five h :
  (5 ≤ length (Cards h))%nat →
  ∃ r s, ResolveRank h = Some r ∧ EvaluateHand h = Some s ∧
         ResolveRank (first_five h) = Some r ∧
         EvaluateHand (first_five h) = Some s.
Proof.
  intros Hlen.
  pose proof (ResolveRank_first_five h Hlen) as Hr.
  pose proof (λ r, branch_score_first_five r h Hlen) as Hbs.
  destruct (at_least_five_cards h Hlen) as (c0 & c1 & c2 & c3 & c4 & rest & Hh).
  assert (first_five h = hand_of [c0; c1; c2; c3; c4]) as Hff by (by subst h).
  destruct (EvaluateHand_five_defined c0 c1 c2 c3 c4) as (r & s & Hr5 & Hs5).
  rewrite <- Hff in Hr5, Hs5.
  exists r, s. rewrite Hr. split; [exact Hr5|]. split; [|by split].
  rewrite EvaluateHand_factor, Hr, Hr5. cbn [mbind option_bind].
  by rewrite Hbs, <- (EvaluateHand_resolved _ _ Hr5).
Qed.

Lemma EvaluateHand_first_five_witness :
  ∃ r s, ResolveRank six_card_hand = Some r ∧
         EvaluateHand six_card_hand = Some s ∧
         ResolveRank (first_five six_card_hand) = Some r ∧
         EvaluateHand (first_five six_card_hand) = Some s.
Proof. apply (EvaluateHand_first_five six_card_hand). simpl. lia. Defined.

(** C9, as stated, fails on a hand of six cards: it is resolved to
    [Straight] and given the score of its first five cards. *)
Lemma EvaluateHand_six_cards_scored :
  length (Cards six_card_hand) ≠ 5%nat ∧
  ResolveRank six_card_hand = Some Straight ∧
  EvaluateHand six_card_hand = Some (5 * 14 ^ 5 + 14).
Proof. split; [simpl; lia|]. split; reflexivity. Qed.

(** On this hand of four cards the first read of [Cards[4]] is out of
    range. *)
Example EvaluateHand_four_cards : EvaluateHand four_card_hand = None.
Proof. reflexivity. Qed.

(** ** More on the sorter *)

(** X1.  Whatever the number of cards, [SortHand] returns the cards it was
    given, each as often as before, in non-decreasing order of rank. *)
Theorem SortHand_sorts h :
  rank_sorted (SortHand h) ∧ Cards (SortHand h) ≡ₚ Cards h ∧
  length (Cards (SortHand h)) = length (Cards h).
Proof.
  split; [apply SortHand_sorted|].
  split; [apply SortHand_perm | apply SortHand_length].
Qed.

(** The outer loop keeps the cards of each rank in their order. *)
Lemma SortHand_loop_stable r post pre :
  cards_of_rank r (SortHand_loop (length post) (length pre) (pre ++ post)) =
  cards_of_rank r (pre ++ post).
Proof.
  unfold cards_of_rank.
  revert pre. induction post as [|key post IH]; intros pre; [reflexivity|].
  cbn [length SortHand_loop].
  rewrite list_lookup_middle by reflexivity.
  destruct (SortHand_shift_spec key pre key post) as (a & b & -> & -> & Hb & _).
  replace (S (length (a ++ b))) with (length (a ++ key :: b))
    by (rewrite !length_app; simpl; lia).
  replace (a ++ key :: b ++ post) with ((a ++ key :: b) ++ post)
    by (by rewrite <- app_assoc).
  rewrite IH. rewrite !filter_app, !filter_cons.
  destruct (decide (Rank key = r)) as [Hr|Hr]; [|reflexivity].
  assert (filter (λ c, Rank c = r) b = []) as ->.
  { clear -Hb Hr. induction Hb as [|c b Hc Hb IHb]; [reflexivity|].
    rewrite filter_cons_False; [exact IHb|].
    intros Heq. rewrite Heq, <- Hr in Hc. lia. }
  by rewrite app_nil_r, <- app_assoc.
Qed.

(** X2.  [SortHand] is stable: the cards of one rank come out in the order
    in which they went in (the inner loop moves a card past cards of
    strictly higher rank only). *)
Theorem SortHand_stable h r :
  cards_of_rank r (Cards (SortHand h)) = cards_of_rank r (Cards h).
Proof.
  destruct h as [[|c post]]; unfold SortHand; simpl; [reflexivity|].
  rewrite Nat.sub_0_r. apply (SortHand_loop_stable r post [c]).
Qed.

(** On a sorted vector the outer loop changes nothing. *)
Lemma SortHand_loop_sorted post pre :
  StronglySorted Card_le (pre ++ post) →
  SortHand_loop (length post) (length pre) (pre ++ post) = pre ++ post.
Proof.
  revert pre. induction post as [|key post IH]; intros pre Hs; [reflexivity|].
  cbn [length SortHand_loop].
  rewrite list_lookup_middle by reflexivity.
  destruct (SortHand_shift_spec key pre key post) as (a & b & -> & -> & Hb & _).
  assert (b = []) as ->.
  { destruct b as [|c b]; [reflexivity|]. exfalso.
    apply Forall_cons in Hb as [Hc _].
    apply StronglySorted_app in Hs as (Hle & _ & _).
    assert (Card_le c key) as Hck.
    { apply Hle; [|by left]. apply elem_of_app. right. by left. }
    unfold Card_le in Hck. lia. }
  rewrite app_nil_r in *. cbn [app].
  replace (S (length a)) with (length (a ++ [key]))
    by (rewrite length_app; simpl; lia).
  replace (a ++ key :: post) with ((a ++ [key]) ++ post)
    by (by rewrite <- app_assoc).
  apply IH. by rewrite <- app_assoc.
Qed.

Lemma SortHand_of_sorted h : rank_sorted h → SortHand h = h.
Proof.
  destruct h as [[|c post]]; unfold rank_sorted, SortHand; simpl;
    [reflexivity|].
  intros Hs. rewrite Nat.sub_0_r. f_equal.
  apply (SortHand_loop_sorted post [c] Hs).
Qed.

(** X3.  The hands that [SortHand] leaves unchanged are exactly the
    rank-sorted ones. *)
Theorem SortHand_fixed_iff_sorted h : SortHand h = h ↔ rank_sorted h.
Proof.
  split; [|apply SortHand_of_sorted].
  intros <-. apply SortHand_sorted.
Qed.

(** X4.  Sorting a second time changes nothing. *)
Theorem SortHand_idempotent h : SortHand (SortHand h) = SortHand h.
Proof. apply SortHand_of_sorted, SortHand_sorted. Qed.

(** ** The predicates and the rank counts *)

(** Use a hypothesis on the number of cards of some rank in a five-card
    hand: split on which cards have that rank. *)
Ltac split_count H :=
  rewrite rank_count_five in H; unfold has_rank in H; cbn [Rank] in H;
  repeat case_decide; ranks_to_int; try lia.

(** Prove a statement on the number of cards of a given rank in a five-card
    hand whose equal ranks are known. *)
Ltac solve_count :=
  rewrite ?rank_count_five;
  repeat match goal with
  | |- context [has_rank ?r ?c] =>
      first [ rewrite (has_rank_eq r c)
                by (cbn [Rank];
                    first [congruence
                          | apply CardRank_int_inj; ranks_to_int; lia])
            | rewrite (has_rank_ne r c)
                by (cbn [Rank]; intros ?; ranks_to_int; lia) ]
  end;
  first [reflexivity | lia].

Section FiveCardPredicates.

Context (c0 c1 c2 c3 c4 : Card).

Lemma IsQuad_five :
  IsQuad (hand_of [c0; c1; c2; c3; c4]) =
  Some (same_rank c0 c3 || same_rank c1 c4).
Proof.
  unfold IsQuad, same_rank; cbn. by destruct (Rank_eqb (Rank c0) (Rank c3)).
Qed.

Lemma IsSet_five :
  IsSet (hand_of [c0; c1; c2; c3; c4]) =
  Some (Z.b2z (same_rank c0 c1 && same_rank c1 c2) + Z.b2z (same_rank c1 c2 && same_rank c2 c3) + Z.b2z (same_rank c2 c3 && same_rank c3 c4) =? 1).
Proof.
  unfold IsSet, same_rank; cbn.
  by destruct (Rank_eqb (Rank c0) (Rank c1)), (Rank_eqb (Rank c1) (Rank c2)),
    (Rank_eqb (Rank c2) (Rank c3)), (Rank_eqb (Rank c3) (Rank c4)).
Qed.

Lemma IsTwoPair_five :
  IsTwoPair (hand_of [c0; c1; c2; c3; c4]) =
  Some (same_rank c0 c1 && (same_rank c2 c3 || same_rank c3 c4) || negb (same_rank c0 c1) && same_rank c1 c2 && same_rank c3 c4).
Proof.
  unfold IsTwoPair, same_rank; cbn.
  by destruct (Rank_eqb (Rank c0) (Rank c1)), (Rank_eqb (Rank c1) (Rank c2)),
    (Rank_eqb (Rank c2) (Rank c3)), (Rank_eqb (Rank c3) (Rank c4)).
Qed.

Lemma IsStraight_five :
  IsStraight (hand_of [c0; c1; c2; c3; c4]) =
  Some ((CardRank_int (Rank c0) + 1 =? CardRank_int (Rank c1)) &&
        (CardRank_int (Rank c1) + 1 =? CardRank_int (Rank c2)) &&
        (CardRank_int (Rank c2) + 1 =? CardRank_int (Rank c3)) &&
        (CardRank_int (Rank c3) + 1 =? CardRank_int (Rank c4))).
Proof.
  unfold IsStraight; cbn.
  by destruct (_ =? CardRank_int (Rank c1)), (_ =? CardRank_int (Rank c2)),
    (_ =? CardRank_int (Rank c3)), (_ =? CardRank_int (Rank c4)).
Qed.

Lemma IsFullHouse_five :
  IsFullHouse (hand_of [c0; c1; c2; c3; c4]) =
  Some ((Z.b2z (same_rank c0 c1 && same_rank c1 c2) + Z.b2z (same_rank c1 c2 && same_rank c2 c3) + Z.b2z (same_rank c2 c3 && same_rank c3 c4) =? 1) &&
        (same_rank c0 c1 && (same_rank c2 c3 || same_rank c3 c4) || negb (same_rank c0 c1) && same_rank c1 c2 && same_rank c3 c4)).
Proof.
  unfold IsFullHouse. rewrite IsSet_five, IsTwoPair_five. cbn [mbind option_bind].
  by destruct (_ =? 1).
Qed.

End FiveCardPredicates.

(** On a rank-sorted five-card hand [IsQuad] answers [true] exactly
    when some rank is held by four cards or more. *)
Lemma IsQuad_sig h :
  length (Cards h) = 5%nat → rank_sorted h →
  ∃ b, IsQuad h = Some b ∧ (b = true ↔ four_or_more h).
Proof.
  intros Hlen Hs. open_hand h Hlen.
  rewrite IsQuad_five. eexists; split; [reflexivity|].
  unfold four_or_more, same_rank, Rank_eqb; cbn [Rank].
  repeat case_bool_decide; cbn [orb]; (split; [try discriminate; intros _|]);
    try (intros _; reflexivity).
  - exists r1. solve_count.
  - exists r1. solve_count.
  - exists r1. solve_count.
  - intros [r Hr]. exfalso. split_count Hr.
Qed.

(** On a rank-sorted five-card hand [IsSet] answers [true] exactly when
    some rank is held by exactly three cards: also on a full house, and not
    on four of a kind. *)
Lemma IsSet_sig h :
  length (Cards h) = 5%nat → rank_sorted h →
  ∃ b, IsSet h = Some b ∧ (b = true ↔ three_of_a_kind h).
Proof.
  intros Hlen Hs. open_hand h Hlen.
  rewrite IsSet_five. eexists; split; [reflexivity|].
  unfold three_of_a_kind, same_rank, Rank_eqb; cbn [Rank].
  repeat case_bool_decide; cbn [andb Z.b2z Z.add Z.eqb Pos.add Pos.eqb Pos.succ];
    (split; [try discriminate; intros _|]); try (intros _; reflexivity);
    try (exists r2; solve_count);
    intros [r Hr]; exfalso; split_count Hr.
Qed.

(** On a rank-sorted five-card hand [IsTwoPair] answers [true] exactly
    when two disjoint pairs of cards of equal rank exist: on two pairs, and
    also on a full house and on four (or five) of a kind. *)
Lemma IsTwoPair_sig h :
  length (Cards h) = 5%nat → rank_sorted h →
  ∃ b, IsTwoPair h = Some b ∧
       (b = true ↔ two_pair h ∨ full_house h ∨ four_or_more h).
Proof.
  intros Hlen Hs. open_hand h Hlen.
  rewrite IsTwoPair_five. eexists; split; [reflexivity|].
  unfold two_pair, full_house, four_or_more, same_rank, Rank_eqb; cbn [Rank].
  repeat case_bool_decide; cbn [andb orb negb];
    (split; [try discriminate; intros _|]); try (intros _; reflexivity);
    try first
      [ left; exists r1, r3;
        split; [intros ?; ranks_to_int; lia | split; solve_count]
      | right; left; exists r2, r4; split; solve_count
      | right; left; exists r2, r0; split; solve_count
      | right; right; exists r2; solve_count ];
    (intros [(r & r' & Hne & Hr & Hr') | [(r & r' & Hr & Hr') | [r Hr]]];
     exfalso;
     [ split_count Hr; split_count Hr'
     | split_count Hr; split_count Hr'
     | split_count Hr ]).
Qed.

(** On a rank-sorted five-card hand [IsFullHouse] answers [true]
    exactly when one rank is held by three cards and another by two. *)
Lemma IsFullHouse_sig h :
  length (Cards h) = 5%nat → rank_sorted h →
  ∃ b, IsFullHouse h = Some b ∧ (b = true ↔ full_house h).
Proof.
  intros Hlen Hs. open_hand h Hlen.
  rewrite IsFullHouse_five. eexists; split; [reflexivity|].
  unfold full_house, same_rank, Rank_eqb; cbn [Rank].
  repeat case_bool_decide;
    cbn [andb orb negb Z.b2z Z.add Z.eqb Pos.add Pos.eqb Pos.succ];
    (split; [try discriminate; intros _|]); try (intros _; reflexivity);
    try first
      [ exists r2, r4; split; solve_count
      | exists r2, r0; split; solve_count ];
    (intros (r & r' & Hr & Hr'); exfalso; split_count Hr; split_count Hr').
Qed.

Lemma IsStraight_sig h :
  length (Cards h) = 5%nat →
  ∃ b, IsStraight h = Some b ∧ (b = true ↔ consecutive h).
Proof.
  intros Hlen. destruct (five_cards h Hlen) as (c0 & c1 & c2 & c3 & c4 & ->).
  rewrite IsStraight_five. eexists; split; [reflexivity|].
  unfold consecutive, ranks; cbn [Cards hand_of fmap list_fmap].
  rewrite !andb_true_iff, !Z.eqb_eq. split.
  - intros (((E1 & E2) & E3) & E4). exists (CardRank_int (Rank c0)).
    repeat f_equal; lia.
  - intros (v & [= -> -> -> -> ->]). lia.
Qed.

Lemma IsFlush_sig h :
  length (Cards h) = 5%nat →
  ∃ b, IsFlush h = Some b ∧ (b = true ↔ one_suit h).
Proof.
  intros Hlen. destruct (five_cards h Hlen) as (c0 & c1 & c2 & c3 & c4 & ->).
  apply IsFlush_five.
Qed.

(** A predicate that answers on every hand answers [true] where the
    property holds and [false] where it does not. *)
Lemma decided_iff (P : Prop) (o : option bool) :
  (∃ b, o = Some b ∧ (b = true ↔ P)) →
  (o = Some true ↔ P) ∧ (o = Some false ↔ ¬ P).
Proof.
  intros (b & -> & [Hb1 Hb2]). destruct b; split; split.
  - intros _. by apply Hb1.
  - intros _. reflexivity.
  - intros [=].
  - intros HnP. exfalso. by apply HnP, Hb1.
  - intros [=].
  - intros HP. apply Hb2 in HP. discriminate HP.
  - intros _ HP. apply Hb2 in HP. discriminate HP.
  - intros _. reflexivity.
Qed.

(** X5.  On a rank-sorted five-card hand [IsQuad] answers [true] when some
    rank is held by four cards or more and [false] otherwise. *)
Theorem IsQuad_four_or_more h :
  length (Cards h) = 5%nat → rank_sorted h →
  (IsQuad h = Some true ↔ four_or_more h) ∧
  (IsQuad h = Some false ↔ ¬ four_or_more h).
Proof. intros Hlen Hs. apply decided_iff. by apply IsQuad_sig. Qed.

(** X6.  On a rank-sorted five-card hand [IsSet] answers [true] when some
    rank is held by exactly three cards (also on a full house, and not on
    four of a kind) and [false] otherwise. *)
Theorem IsSet_three_of_a_kind h :
  length (Cards h) = 5%nat → rank_sorted h →
  (IsSet h = Some true ↔ three_of_a_kind h) ∧
  (IsSet h = Some false ↔ ¬ three_of_a_kind h).
Proof. intros Hlen Hs. apply decided_iff. by apply IsSet_sig. Qed.

(** X7.  On a rank-sorted five-card hand [IsTwoPair] answers [true] when
    two disjoint pairs of cards of equal rank exist, that is on two pairs
    and also on a full house and on four (or five) of a kind, and [false]
    otherwise. *)
Theorem IsTwoPair_two_disjoint_pairs h :
  length (Cards h) = 5%nat → rank_sorted h →
  (IsTwoPair h = Some true ↔ two_pair h ∨ full_house h ∨ four_or_more h) ∧
  (IsTwoPair h = Some false ↔ ¬ (two_pair h ∨ full_house h ∨ four_or_more h)).
Proof. intros Hlen Hs. apply decided_iff. by apply IsTwoPair_sig. Qed.

(** X8.  On a rank-sorted five-card hand [IsFullHouse] answers [true] when
    one rank is held by three cards and another by two, and [false]
    otherwise. *)
Theorem IsFullHouse_full_house h :
  length (Cards h) = 5%nat → rank_sorted h →
  (IsFullHouse h = Some true ↔ full_house h) ∧
  (IsFullHouse h = Some false ↔ ¬ full_house h).
Proof. intros Hlen Hs. apply decided_iff. by apply IsFullHouse_sig. Qed.

Lemma IsQuad_four_or_more_witness :
  (IsQuad quad_low_kicker = Some true ↔ four_or_more quad_low_kicker) ∧
  (IsQuad quad_low_kicker = Some false ↔ ¬ four_or_more quad_low_kicker).
Proof.
  apply (IsQuad_four_or_more quad_low_kicker);
    [reflexivity | apply rank_sorted_five; simpl; lia].
Defined.

Lemma IsSet_three_of_a_kind_witness :
  (IsSet set_low_triple = Some true ↔ three_of_a_kind set_low_triple) ∧
  (IsSet set_low_triple = Some false ↔ ¬ three_of_a_kind set_low_triple).
Proof.
  apply (IsSet_three_of_a_kind set_low_triple);
    [reflexivity | apply rank_sorted_five; simpl; lia].
Defined.

Lemma IsTwoPair_two_disjoint_pairs_witness :
  (IsTwoPair two_pair_01_23 = Some true ↔
   two_pair two_pair_01_23 ∨ full_house two_pair_01_23 ∨
   four_or_more two_pair_01_23) ∧
  (IsTwoPair two_pair_01_23 = Some false ↔
   ¬ (two_pair two_pair_01_23 ∨ full_house two_pair_01_23 ∨
      four_or_more two_pair_01_23)).
Proof.
  apply (IsTwoPair_two_disjoint_pairs two_pair_01_23);
    [reflexivity | apply rank_sorted_five; simpl; lia].
Defined.

Lemma IsFullHouse_full_house_witness :
  (IsFullHouse full_house_low_triple = Some true ↔
   full_house full_house_low_triple) ∧
  (IsFullHouse full_house_low_triple = Some false ↔
   ¬ full_house full_house_low_triple).
Proof.
  apply (IsFullHouse_full_house full_house_low_triple);
    [reflexivity | apply rank_sorted_five; simpl; lia].
Defined.

(** On a five-card hand, sorted or not, [IsStraight] answers [true] when
    the rank values are five consecutive integers in the order of the cards,
    and [false] otherwise. *)
Lemma IsStraight_consecutive h :
  length (Cards h) = 5%nat →
  (IsStraight h = Some true ↔ consecutive h) ∧
  (IsStraight h = Some false ↔ ¬ consecutive h).
Proof. intros Hlen. apply decided_iff. by apply IsStraight_sig. Qed.

(** On a five-card hand, in any order, [IsFlush] answers [true] when all
    the cards have one suit, and [false] otherwise. *)
Lemma IsFlush_one_suit h :
  length (Cards h) = 5%nat →
  (IsFlush h = Some true ↔ one_suit h) ∧
  (IsFlush h = Some false ↔ ¬ one_suit h).
Proof. intros Hlen. apply decided_iff. by apply IsFlush_sig. Qed.




(** The wheel is scored as a high card. *)
Example wheel_is_no_straight :
  rank_sorted wheel ∧ IsStraight wheel = Some false ∧
  ResolveRank wheel = Some HighCard.
Proof. split; [apply rank_sorted_five; simpl; lia|]. split; reflexivity. Qed.

(** ** The resolved category and the rank counts *)

Lemma IsStraightFlush_true h :
  IsStraightFlush h = Some true →
  IsStraight h = Some true ∧ IsFlush h = Some true.
Proof.
  unfold IsStraightFlush. destruct (IsStraight h) as [[]|]; simpl; [done| |done].
  discriminate.
Qed.

Lemma IsStraightFlush_false h :
  IsStraightFlush h = Some false →
  IsStraight h = Some false ∨ IsFlush h = Some false.
Proof.
  unfold IsStraightFlush.
  destruct (IsStraight h) as [[]|]; simpl; [by right | by left | discriminate].
Qed.

(** Without pair, two pairs, three or four of a kind, the five ranks
    differ. *)
Lemma no_pair_all_different h :
  length (Cards h) = 5%nat → rank_sorted h →
  IsQuad h = Some false → IsSet h = Some false →
  IsTwoPair h = Some false → IsPair h = Some false →
  all_different h.
Proof.
  intros Hlen Hs. open_hand h Hlen.
  rewrite IsQuad_five, IsSet_five, IsTwoPair_five, IsPair_five.
  unfold adj, same_rank, Rank_eqb; cbn [Rank].
  intros Hq Hse Htp Hp r.
  repeat case_bool_decide; try discriminate;
    rewrite rank_count_five; unfold has_rank; cbn [Rank];
    repeat case_decide; ranks_to_int; lia.
Qed.

(** The category resolved has the signature of that category. *)
Lemma ResolveRank_sound h r :
  length (Cards h) = 5%nat → rank_sorted h →
  ResolveRank h = Some r → category_signature r h.
Proof.
  intros Hlen Hs Hres. apply ResolveRank_inv in Hres.
  destruct (decided_iff _ _ (IsQuad_sig h Hlen Hs)) as [Hq1 Hq0].
  destruct (decided_iff _ _ (IsSet_sig h Hlen Hs)) as [Hse1 Hse0].
  destruct (decided_iff _ _ (IsTwoPair_sig h Hlen Hs)) as [Htp1 Htp0].
  destruct (decided_iff _ _ (IsFullHouse_sig h Hlen Hs)) as [Hfh1 Hfh0].
  destruct (decided_iff _ _ (IsStraight_sig h Hlen)) as [Hst1 Hst0].
  destruct (decided_iff _ _ (IsFlush_sig h Hlen)) as [Hfl1 Hfl0].
  pose proof (IsPair_one_pair h Hlen Hs) as Hp1.
  destruct r; cbn [category_signature].
  - apply IsStraightFlush_true in Hres as [? ?]. split; [by apply Hst1 | by apply Hfl1].
  - destruct Hres as (_ & ?). by apply Hq1.
  - destruct Hres as (_ & _ & ?). by apply Hfh1.
  - destruct Hres as (Hsf & Hq & Hfh & Hfl).
    split; [by apply Hfl1|]. split; [|split; [by apply Hq0 | by apply Hfh0]].
    apply Hst0. apply IsStraightFlush_false in Hsf as [?|?]; congruence.
  - destruct Hres as (_ & _ & _ & Hfl & Hst).
    split; [by apply Hst1 | by apply Hfl0].
  - destruct Hres as (_ & _ & Hfh & Hfl & _ & Hse).
    split; [by apply Hse1|]. split; [by apply Hfh0 | by apply Hfl0].
  - destruct Hres as (_ & Hq & Hfh & Hfl & _ & _ & Htp).
    split; [|by apply Hfl0].
    apply Htp1 in Htp as [?|[Hfull|Hfour]]; [done|..].
    + by apply Hfh0 in Hfh.
    + by apply Hq0 in Hq.
  - destruct Hres as (_ & _ & _ & Hfl & _ & _ & _ & Hp).
    split; [by apply Hp1 | by apply Hfl0].
  - destruct Hres as (_ & Hq & _ & Hfl & Hst & Hse & Htp & Hp).
    split; [by apply no_pair_all_different|].
    split; [by apply Hfl0 | by apply Hst0].
Qed.

(** Cards of two, or of three, different ranks are different cards. *)
Lemma rank_count_two r1 r2 h :
  r1 ≠ r2 → (rank_count r1 h + rank_count r2 h ≤ length (Cards h))%nat.
Proof.
  intros Hne. unfold rank_count. induction (Cards h) as [|c cs IH]; [simpl; lia|].
  rewrite !filter_cons. repeat case_decide; simpl; first [lia | congruence].
Qed.

Lemma rank_count_three r1 r2 r3 h :
  r1 ≠ r2 → r1 ≠ r3 → r2 ≠ r3 →
  (rank_count r1 h + rank_count r2 h + rank_count r3 h ≤ length (Cards h))%nat.
Proof.
  intros H12 H13 H23. unfold rank_count.
  induction (Cards h) as [|c cs IH]; [simpl; lia|].
  rewrite !filter_cons. repeat case_decide; simpl; first [lia | congruence].
Qed.

Lemma consecutive_all_different h r :
  length (Cards h) = 5%nat → consecutive h → (rank_count r h ≤ 1)%nat.
Proof.
  intros Hlen [v Hv].
  destruct (five_cards h Hlen) as (c0 & c1 & c2 & c3 & c4 & ->).
  unfold ranks in Hv; cbn [Cards hand_of fmap list_fmap] in Hv.
  injection Hv as E0 E1 E2 E3 E4.
  rewrite rank_count_five. unfold has_rank.
  repeat case_decide; ranks_to_int; lia.
Qed.

(** The rank-count signatures exclude one another on five cards. *)
Lemma signatures_exclusive h :
  length (Cards h) = 5%nat →
  (consecutive h → all_different h) ∧
  (all_different h →
   ¬ four_or_more h ∧ ¬ three_of_a_kind h ∧ ¬ two_pair h ∧ ¬ full_house h ∧
   ¬ one_pair h) ∧
  (full_house h → three_of_a_kind h) ∧
  (three_of_a_kind h → ¬ four_or_more h) ∧
  (two_pair h → ¬ four_or_more h ∧ ¬ three_of_a_kind h) ∧
  (one_pair h → ¬ four_or_more h ∧ ¬ three_of_a_kind h ∧ ¬ two_pair h).
Proof.
  intros Hlen.
  split; [intros Hc r; by apply consecutive_all_different|].
  split.
  { intros Hall. repeat split.
    - intros [x Hx]. specialize (Hall x). lia.
    - intros [x Hx]. specialize (Hall x). lia.
    - intros (x & _ & _ & Hx & _). specialize (Hall x). lia.
    - intros (x & _ & Hx & _). specialize (Hall x). lia.
    - intros (x & Hx & _). specialize (Hall x). lia. }
  split; [intros (x & _ & Hx & _); by exists x|].
  split.
  { intros (r & Hr) [x Hx]. pose proof (rank_count_two r x h) as Hsum.
    destruct (decide (r = x)) as [->|Hne]; [lia|].
    specialize (Hsum Hne). lia. }
  split.
  { intros (r & r' & Hne & Hr & Hr'). split.
    - intros [x Hx]. pose proof (rank_count_two r x h) as Hsum.
      destruct (decide (r = x)) as [->|Hrx]; [lia|].
      specialize (Hsum Hrx). lia.
    - intros [x Hx].
      pose proof (rank_count_three r r' x h Hne) as Hsum.
      destruct (decide (r = x)) as [->|Hrx]; [lia|].
      destruct (decide (r' = x)) as [->|Hrx']; [lia|].
      specialize (Hsum Hrx Hrx'). lia. }
  intros Hone. repeat split.
  - intros [x Hx]. by apply (one_pair_no_triple h x); [lia|].
  - intros H3. by apply (three_of_a_kind_not_one_pair h).
  - intros H2. by apply (two_pair_not_one_pair h).
Qed.

(** A hand has the signature of one category at most. *)
Lemma category_signature_unique h r r' :
  length (Cards h) = 5%nat →
  category_signature r h → category_signature r' h → r = r'.
Proof.
  intros Hlen.
  destruct (signatures_exclusive h Hlen) as (HC & HAD & HFH & H3 & H2P & H1P).
  destruct r, r'; cbn [category_signature]; intros Hsig Hsig';
    try reflexivity; exfalso; tauto.
Qed.

(** The category of the signature is the category resolved. *)
Lemma ResolveRank_complete h r :
  length (Cards h) = 5%nat → rank_sorted h →
  category_signature r h → ResolveRank h = Some r.
Proof.
  intros Hlen Hs Hsig.
  destruct (five_cards h Hlen) as (c0 & c1 & c2 & c3 & c4 & Hh).
  destruct (ResolveRank_five_defined c0 c1 c2 c3 c4) as [r' Hr'].
  rewrite <- Hh in Hr'. rewrite Hr'. f_equal.
  apply (category_signature_unique h r' r Hlen); [|exact Hsig].
  by apply ResolveRank_sound.
Qed.

(** X10.  The category that [EvaluateHand] resolves for a rank-sorted
    five-card hand is the one, and the only one, that its rank counts, its
    suits and its rank values call for: four of a kind or more for [Quad], a
    triple and a pair for [FullHouse], a triple without a pair for [Set_],
    two pairs, one pair, five different ranks for [HighCard], with the
    flushes and the straights above the hands they contain. *)
Theorem ResolveRank_signature h r :
  length (Cards h) = 5%nat → rank_sorted h →
  ResolveRank h = Some r ↔ category_signature r h.
Proof.
  intros Hlen Hs. split; [by apply ResolveRank_sound | by apply ResolveRank_complete].
Qed.

Lemma ResolveRank_signature_witness :
  ResolveRank (SortHand main_hand1) = Some FullHouse ↔
  category_signature FullHouse (SortHand main_hand1).
Proof.
  apply (ResolveRank_signature (SortHand main_hand1) FullHouse);
    [reflexivity | apply rank_sorted_five; simpl; lia].
Defined.

(** ** Order of the scores *)

(** X12.  Among the valid rank-sorted five-card hands, the hands of a
    stronger category all outscore the hands of a weaker one for every pair
    of categories but one: [Straight] over [Set_]. *)
Theorem always_outscores_iff r1 r2 :
  HandRank_int r2 < HandRank_int r1 →
  always_outscores r1 r2 ↔ ¬ (r1 = Straight ∧ r2 = Set_).
Proof.
  intros Hlt. split.
  - intros Hout [-> ->].
    assert (5 * 14 ^ 5 + 14 < 5 * 14 ^ 5 + 6); [|lia].
    apply (Hout low_straight set_of_aces); try reflexivity;
      first [ apply rank_sorted_five; simpl; lia
            | repeat constructor; discriminate ].
  - intros Hex h1 h2 s1 s2 Hl1 Hv1 _ Hl2 Hv2 _ Hr1 Hr2 Hs1 Hs2.
    destruct (category_order_except_Straight_Set h1 h2 r1 r2)
      as (s1' & s2' & Hs1' & Hs2' & Hlt'); try assumption.
    congruence.
Qed.

Lemma always_outscores_iff_witness :
  always_outscores Flush Straight ↔ ¬ (Flush = Straight ∧ Straight = Set_).
Proof. apply (always_outscores_iff Flush Straight). simpl. lia. Defined.

(** X13.  Two valid five-card hands that both resolve to [StraightFlush],
    both to [Flush] or both to [HighCard] compare as their ranks do from the
    last card down: the first difference decides, and the scores are equal
    only when the five ranks are. *)
Theorem five_kickers_order h1 h2 r s1 s2 :
  length (Cards h1) = 5%nat → valid_hand h1 →
  length (Cards h2) = 5%nat → valid_hand h2 →
  r = StraightFlush ∨ r = Flush ∨ r = HighCard →
  ResolveRank h1 = Some r → ResolveRank h2 = Some r →
  EvaluateHand h1 = Some s1 → EvaluateHand h2 = Some s2 →
  (s1 < s2 ↔ lex_lt (ranks_from_top h1) (ranks_from_top h2)) ∧
  (s1 = s2 ↔ ranks h1 = ranks h2).
Proof.
  intros Hl1 Hv1 Hl2 Hv2 Hr Hr1 Hr2.
  rewrite (EvaluateHand_resolved _ _ Hr1), (EvaluateHand_resolved _ _ Hr2).
  clear Hr1 Hr2.
  destruct (five_cards h1 Hl1) as (c0 & c1 & c2 & c3 & c4 & ->).
  destruct (five_cards h2 Hl2) as (d0 & d1 & d2 & d3 & d4 & ->).
  apply valid_hand_five in Hv1 as (?&?&?&?&?).
  apply valid_hand_five in Hv2 as (?&?&?&?&?).
  unfold ranks_from_top, ranks; cbn [Cards hand_of fmap list_fmap].
  change (reverse [?a0; ?a1; ?a2; ?a3; ?a4]) with [a4; a3; a2; a1; a0].
  cbn [lex_lt].
  destruct Hr as [-> | [-> | ->]];
    unfold branch_score, rank_at; cbn -[Z.pow Z.mul Z.add];
    intros [= <-] [= <-];
    (split; [lia|]);
    (split;
     [ intros Heq;
       assert (Rank c0 = Rank d0) as -> by (apply CardRank_int_inj; lia);
       assert (Rank c1 = Rank d1) as -> by (apply CardRank_int_inj; lia);
       assert (Rank c2 = Rank d2) as -> by (apply CardRank_int_inj; lia);
       assert (Rank c3 = Rank d3) as -> by (apply CardRank_int_inj; lia);
       assert (Rank c4 = Rank d4) as -> by (apply CardRank_int_inj; lia);
       reflexivity
     | intros [= -> -> -> -> ->]; reflexivity ]).
Qed.

(** A rank-sorted hand has the ranks of the sorted list of its ranks. *)
Lemma rank_sorted_ranks_eq h l :
  rank_sorted h → ranks h ≡ₚ l → StronglySorted Z.le (CardRank_int <$> l) →
  ranks h = l.
Proof.
  unfold rank_sorted, ranks. intros Hs Hperm Hl.
  apply (inj (fmap CardRank_int)).
  apply (StronglySorted_unique Z.le); [|exact Hl|by rewrite Hperm].
  rewrite <- list_fmap_compose.
  apply (StronglySorted_fmap _ Card_le); [|exact Hs]. by intros x y Hxy.
Qed.

Lemma valid_hand_ranks h l :
  valid_hand h → ranks h ≡ₚ l → Forall (λ r, 2 ≤ CardRank_int r ≤ 14) l.
Proof.
  unfold valid_hand, ranks. intros Hv Hperm. rewrite <- Hperm.
  apply Forall_fmap. eapply Forall_impl; [exact Hv|].
  intros c Hc. by apply CardRank_int_valid.
Qed.

(** The score of a one-pair hand from its pair and its three other ranks,
    whichever positions the pair has. *)
Lemma Pair_score_of_ranks h p k0 k1 k2 :
  length (Cards h) = 5%nat → rank_sorted h → ResolveRank h = Some Pair →
  ranks h ≡ₚ [p; p; k0; k1; k2] →
  CardRank_int k0 < CardRank_int k1 < CardRank_int k2 →
  EvaluateHand h =
    Some (2 * 14 ^ 5 + CardRank_int p * 14 ^ 4 + CardRank_int k2 * 14 ^ 3 +
          CardRank_int k1 * 14 ^ 2 + CardRank_int k0 * 14 ^ 1).
Proof.
  intros Hlen Hs Hres Hperm Hk.
  rewrite (EvaluateHand_resolved _ _ Hres).
  apply ResolveRank_inv in Hres. destruct Hres as (_&_&_&_&_&_&_&Hp).
  assert (∃ l, ranks h = l ∧
            (l = [p; p; k0; k1; k2] ∨ l = [k0; p; p; k1; k2] ∨
             l = [k0; k1; p; p; k2] ∨ l = [k0; k1; k2; p; p])) as (l & Hl & Hcase).
  { assert (CardRank_int p ≤ CardRank_int k0 ∨
            CardRank_int k0 ≤ CardRank_int p ≤ CardRank_int k1 ∨
            CardRank_int k1 ≤ CardRank_int p ≤ CardRank_int k2 ∨
            CardRank_int k2 ≤ CardRank_int p) as [?|[?|[?|?]]] by lia;
      eexists; (split; [apply (rank_sorted_ranks_eq h _ Hs)|]).
    - exact Hperm.
    - cbn [fmap list_fmap]. repeat constructor; lia.
    - by left.
    - rewrite Hperm. symmetry. apply (Permutation_middle [p; p] [k1; k2] k0).
    - cbn [fmap list_fmap]. repeat constructor; lia.
    - right. by left.
    - rewrite Hperm. apply (Permutation_app_swap_app [p; p] [k0; k1] [k2]).
    - cbn [fmap list_fmap]. repeat constructor; lia.
    - right. right. by left.
    - rewrite Hperm. apply (Permutation_app_comm [p; p] [k0; k1; k2]).
    - cbn [fmap list_fmap]. repeat constructor; lia.
    - right. right. by right. }
  destruct (five_cards h Hlen) as (c0 & c1 & c2 & c3 & c4 & ->).
  rewrite IsPair_five in Hp.
  destruct c0 as [s0 r0], c1 as [s1 r1], c2 as [s2 r2], c3 as [s3 r3],
    c4 as [s4 r4].
  unfold ranks in Hl; cbn [Cards hand_of fmap list_fmap Rank] in Hl.
  unfold adj, Rank_eqb in Hp; cbn [Rank] in Hp.
  unfold branch_score, rank_at; cbn; unfold Rank_eqb.
  destruct Hcase as [-> | [-> | [-> | ->]]]; injection Hl as -> -> -> -> ->;
    repeat case_bool_decide; try discriminate Hp; try congruence;
    ranks_to_int; first [f_equal; lia | exfalso; lia].
Qed.

(** X14.  Two valid rank-sorted five-card hands that both resolve to [Pair]
    compare by the rank of the pair first, then by the three other ranks
    from the highest down, whichever positions the two pairs have in the
    sorted hands; the scores are equal only when all four ranks are. *)
Theorem Pair_order h1 h2 p k0 k1 k2 q j0 j1 j2 s1 s2 :
  length (Cards h1) = 5%nat → valid_hand h1 → rank_sorted h1 →
  length (Cards h2) = 5%nat → valid_hand h2 → rank_sorted h2 →
  ResolveRank h1 = Some Pair → ResolveRank h2 = Some Pair →
  ranks h1 ≡ₚ [p; p; k0; k1; k2] →
  CardRank_int k0 < CardRank_int k1 < CardRank_int k2 →
  ranks h2 ≡ₚ [q; q; j0; j1; j2] →
  CardRank_int j0 < CardRank_int j1 < CardRank_int j2 →
  EvaluateHand h1 = Some s1 → EvaluateHand h2 = Some s2 →
  (s1 < s2 ↔
   lex_lt (CardRank_int <$> [p; k2; k1; k0]) (CardRank_int <$> [q; j2; j1; j0])) ∧
  (s1 = s2 ↔ p = q ∧ k0 = j0 ∧ k1 = j1 ∧ k2 = j2).
Proof.
  intros Hl1 Hv1 Hs1 Hl2 Hv2 Hs2 Hr1 Hr2 Hp1 Hk Hp2 Hj.
  rewrite (Pair_score_of_ranks h1 p k0 k1 k2), (Pair_score_of_ranks h2 q j0 j1 j2)
    by assumption.
  intros [= <-] [= <-].
  pose proof (valid_hand_ranks h1 _ Hv1 Hp1) as Hb1.
  pose proof (valid_hand_ranks h2 _ Hv2 Hp2) as Hb2.
  rewrite !Forall_cons in Hb1, Hb2.
  destruct Hb1 as (? & _ & ? & ? & ? & _), Hb2 as (? & _ & ? & ? & ? & _).
  cbn [fmap list_fmap lex_lt]. split; [lia|]. split.
  - intros Heq.
    assert (p = q) as -> by (apply CardRank_int_inj; lia).
    assert (k0 = j0) as -> by (apply CardRank_int_inj; lia).
    assert (k1 = j1) as -> by (apply CardRank_int_inj; lia).
    assert (k2 = j2) as -> by (apply CardRank_int_inj; lia).
    done.
  - by intros (-> & -> & -> & ->).
Qed.

Lemma Pair_order_witness :
  (2 * 14 ^ 5 + 13 * 14 ^ 4 + 9 * 14 ^ 3 + 5 * 14 ^ 2 + 2 * 14 <
   2 * 14 ^ 5 + 2 * 14 ^ 4 + 13 * 14 ^ 3 + 9 * 14 ^ 2 + 5 * 14 ↔
   lex_lt (CardRank_int <$> [King; Nine; Five; Two])
          (CardRank_int <$> [Two; King; Nine; Five])) ∧
  (2 * 14 ^ 5 + 13 * 14 ^ 4 + 9 * 14 ^ 3 + 5 * 14 ^ 2 + 2 * 14 =
   2 * 14 ^ 5 + 2 * 14 ^ 4 + 13 * 14 ^ 3 + 9 * 14 ^ 2 + 5 * 14 ↔
   King = Two ∧ Two = Five ∧ Five = Nine ∧ Nine = King).
Proof.
  apply (Pair_order pair_hand_34 pair_hand_01 King Two Five Nine
           Two Five Nine King);
    try reflexivity;
    first [ apply rank_sorted_five; simpl; lia
          | repeat constructor; discriminate
          | simpl; lia
          | simpl; apply (Permutation_app_comm [_; _; _] [_; _]) ].
Defined.

Lemma five_kickers_order_witness :
  (1 * 14 ^ 5 + 13 * 14 ^ 4 + 11 * 14 ^ 3 + 9 * 14 ^ 2 + 5 * 14 ^ 1 + 2 <
   1 * 14 ^ 5 + 13 * 14 ^ 4 + 11 * 14 ^ 3 + 9 * 14 ^ 2 + 5 * 14 ^ 1 + 3 ↔
   lex_lt (ranks_from_top high_card_2) (ranks_from_top high_card_3)) ∧
  (1 * 14 ^ 5 + 13 * 14 ^ 4 + 11 * 14 ^ 3 + 9 * 14 ^ 2 + 5 * 14 ^ 1 + 2 =
   1 * 14 ^ 5 + 13 * 14 ^ 4 + 11 * 14 ^ 3 + 9 * 14 ^ 2 + 5 * 14 ^ 1 + 3 ↔
   ranks high_card_2 = ranks high_card_3).
Proof.
  apply (five_kickers_order high_card_2 high_card_3 HighCard);
    try reflexivity;
    first [ repeat constructor; discriminate | right; right; reflexivity ].
Defined.

(** ** Three of a kind *)

(** X15.  A rank-sorted five-card hand that resolves to [Set_] has a triple
    [t] and two other ranks [k1 < k2] in one of three layouts, and scores
    [4 * 14^5 + t * 14^4] plus the rank of its last card: the higher kicker
    [k2] when the triple is not on top, the rank of the triple itself when
    it is.  The lower kicker never enters the score. *)
Theorem EvaluateHand_Set_layouts h :
  length (Cards h) = 5%nat → rank_sorted h → ResolveRank h = Some Set_ →
  ∃ t k1 k2,
    CardRank_int k1 < CardRank_int k2 ∧ t ≠ k1 ∧ t ≠ k2 ∧
    ((ranks h = [t; t; t; k1; k2] ∧
      EvaluateHand h =
        Some (4 * 14 ^ 5 + CardRank_int t * 14 ^ 4 + CardRank_int k2)) ∨
     (ranks h = [k1; t; t; t; k2] ∧
      EvaluateHand h =
        Some (4 * 14 ^ 5 + CardRank_int t * 14 ^ 4 + CardRank_int k2)) ∨
     (ranks h = [k1; k2; t; t; t] ∧
      EvaluateHand h =
        Some (4 * 14 ^ 5 + CardRank_int t * 14 ^ 4 + CardRank_int t))).
Proof.
  intros Hlen Hs Hres. rewrite (EvaluateHand_resolved _ _ Hres).
  apply ResolveRank_inv in Hres.
  destruct Hres as (_ & Hq & Hfh & _ & _ & Hset).
  open_hand h Hlen. clear Hlen.
  rewrite IsQuad_five in Hq. rewrite IsFullHouse_five in Hfh.
  rewrite IsSet_five in Hset.
  unfold same_rank, Rank_eqb in *; cbn [Rank] in *.
  repeat case_bool_decide;
    cbn [andb orb negb Z.b2z Z.add Z.eqb Pos.add Pos.eqb Pos.succ] in *;
    try discriminate; try congruence; clear Hq Hfh Hset; subst;
    unfold ranks, branch_score, rank_at; cbn;
    eexists _, _, _;
    (split; [|split; [|split; [|
      first [ left; split; [reflexivity | reflexivity ]
            | right; left; split; [reflexivity | reflexivity ]
            | right; right; split; [reflexivity | reflexivity ] ] ]]]);
    first [congruence | ranks_to_int; lia].
Qed.

Lemma EvaluateHand_Set_layouts_witness :
  ∃ t k1 k2,
    CardRank_int k1 < CardRank_int k2 ∧ t ≠ k1 ∧ t ≠ k2 ∧
    ((ranks set_low_triple = [t; t; t; k1; k2] ∧
      EvaluateHand set_low_triple =
        Some (4 * 14 ^ 5 + CardRank_int t * 14 ^ 4 + CardRank_int k2)) ∨
     (ranks set_low_triple = [k1; t; t; t; k2] ∧
      EvaluateHand set_low_triple =
        Some (4 * 14 ^ 5 + CardRank_int t * 14 ^ 4 + CardRank_int k2)) ∨
     (ranks set_low_triple = [k1; k2; t; t; t] ∧
      EvaluateHand set_low_triple =
        Some (4 * 14 ^ 5 + CardRank_int t * 14 ^ 4 + CardRank_int t))).
Proof.
  apply (EvaluateHand_Set_layouts set_low_triple);
    [reflexivity | apply rank_sorted_five; simpl; lia | reflexivity].
Defined.

(** ** Hands of fewer than five cards *)

(** X16.  On every hand of fewer than five cards [EvaluateHand] reads
    [Cards] out of range, whatever the cards: it has no defined result. *)
Theorem EvaluateHand_short_hand h :
  (length (Cards h) < 5)%nat → EvaluateHand h = None.
Proof.
  destruct h as [cs]; cbn [Cards]. intros Hlen.
  destruct cs as [|c0 [|c1 [|c2 [|c3 [|c4 cs]]]]]; simpl in Hlen; try lia;
    clear Hlen; unfold EvaluateHand, IsStraightFlush, IsStraight, IsFlush, IsQuad;
    cbn; try reflexivity;
    repeat match goal with
    | |- context [Rank_eqb ?a ?b] => destruct (Rank_eqb a b); cbn
    | |- context [Suit_eqb ?a ?b] => destruct (Suit_eqb a b); cbn
    | |- context [Z.eqb ?a ?b] => destruct (Z.eqb a b); cbn
    end; reflexivity.
Qed.

Lemma EvaluateHand_short_hand_witness : EvaluateHand four_card_hand = None.
Proof. apply (EvaluateHand_short_hand four_card_hand). simpl. lia. Defined.

(** ** The names *)


(** ** The deck *)

Lemma Card_of_raw_Card_raw c : Card_of_raw (Card_raw c) = Some c.
Proof. by destruct c as [[] []]. Qed.

Lemma Deck_cards_eq :
  Deck_cards =
  suit ← seqZ 1 4; rank ← seqZ 1 13; [{| RawSuit := suit; RawRank := rank |}].
Proof. reflexivity. Qed.

Lemma elem_of_Deck_cards c :
  c ∈ Deck_cards ↔ 1 ≤ RawSuit c ≤ 4 ∧ 1 ≤ RawRank c ≤ 13.
Proof.
  rewrite Deck_cards_eq, list_elem_of_bind. split.
  - intros (s & Hc & Hs). apply list_elem_of_bind in Hc as (r & Hc & Hr).
    apply list_elem_of_singleton in Hc as ->.
    apply elem_of_seqZ in Hs, Hr. simpl. lia.
  - intros [Hs Hr]. exists (RawSuit c). split; [|apply elem_of_seqZ; lia].
    apply list_elem_of_bind. exists (RawRank c).
    split; [|apply elem_of_seqZ; lia].
    destruct c. by apply list_elem_of_singleton.
Qed.

Lemma NoDup_Deck_cards : NoDup Deck_cards.
Proof. apply (bool_decide_unpack (NoDup Deck_cards)). by vm_compute. Qed.

(** X18.  However [Shuffle] orders it, the deck that the constructor leaves
    has 52 different cards: one for each suit value from 1 to 4 and each
    rank value from 1 to 13.  So it holds no ace (rank 14) and four cards of
    rank 1, which is the value of no enumerator of [CardRank]. *)
Theorem Deck_constructed_cards deck :
  Deck_constructed deck →
  length deck = 52%nat ∧ NoDup deck ∧
  (∀ c, c ∈ deck ↔ 1 ≤ RawSuit c ≤ 4 ∧ 1 ≤ RawRank c ≤ 13) ∧
  (∀ suit, Card_raw (MkCard Ace suit) ∉ deck) ∧
  (∀ suit, 1 ≤ suit ≤ 4 →
     {| RawSuit := suit; RawRank := 1 |} ∈ deck ∧
     Card_of_raw {| RawSuit := suit; RawRank := 1 |} = None).
Proof.
  unfold Deck_constructed. intros Hperm.
  assert (∀ c, c ∈ deck ↔ 1 ≤ RawSuit c ≤ 4 ∧ 1 ≤ RawRank c ≤ 13) as Hin.
  { intros c. rewrite Hperm. apply elem_of_Deck_cards. }
  split; [by rewrite Hperm|].
  split; [rewrite Hperm; apply NoDup_Deck_cards|].
  split; [exact Hin|]. split.
  - intros suit Hace. apply Hin in Hace. simpl in Hace. lia.
  - intros suit Hsuit. split; [apply Hin; simpl; lia|].
    unfold Card_of_raw. reflexivity.
Qed.

Lemma Deck_constructed_cards_witness :
  length Deck_cards = 52%nat ∧ NoDup Deck_cards ∧
  (∀ c, c ∈ Deck_cards ↔ 1 ≤ RawSuit c ≤ 4 ∧ 1 ≤ RawRank c ≤ 13) ∧
  (∀ suit, Card_raw (MkCard Ace suit) ∉ Deck_cards) ∧
  (∀ suit, 1 ≤ suit ≤ 4 →
     {| RawSuit := suit; RawRank := 1 |} ∈ Deck_cards ∧
     Card_of_raw {| RawSuit := suit; RawRank := 1 |} = None).
Proof.
  apply (Deck_constructed_cards Deck_cards).
  unfold Deck_constructed. apply Permutation_refl.
Defined.

Lemma DrawCard_nil : DrawCard [] = (Card_default, []).
Proof. reflexivity. Qed.

Lemma DrawCard_snoc deck c : DrawCard (deck ++ [c]) = (c, deck).
Proof.
  unfold DrawCard, Deck_IsEmpty.
  rewrite bool_decide_false by (by destruct deck).
  rewrite last_snoc, length_app, Nat.add_sub. simpl.
  by rewrite take_app_length.
Qed.

(** The loop started at position [i] with [n] iterations to go, on a hand
    of [i + n] cards. *)
Lemma deal_loop_spec n i deck cards :
  (i + n)%nat = length cards →
  deal_loop n i deck cards =
  (take (length deck - n) deck,
   take i cards ++ reverse (drop (length deck - n) deck) ++
   replicate (n - length deck) Card_default).
Proof.
  revert i deck cards. induction n as [|n IH]; intros i deck cards Hlen.
  - cbn [deal_loop]. rewrite Nat.sub_0_r, take_ge, drop_ge by lia.
    rewrite (take_ge cards) by lia. by rewrite app_nil_r.
  - assert (∀ c, take (S i) (<[i := c]> cards) = take i cards ++ [c]) as Htake.
    { intros c. rewrite (take_S_r _ _ c) by (apply list_lookup_insert_eq; lia).
      by rewrite take_insert_ge by lia. }
    cbn [deal_loop]. destruct deck as [|c deck _] using rev_ind.
    + rewrite DrawCard_nil. cbv iota beta.
      rewrite IH by (rewrite length_insert; lia).
      rewrite Htake. cbn [length Nat.sub take drop reverse app].
      rewrite Nat.sub_0_r. cbn [replicate].
      by rewrite <- app_assoc.
    + rewrite DrawCard_snoc. cbv iota beta.
      rewrite IH by (rewrite length_insert; lia).
      rewrite Htake, length_app. cbn [length].
      replace (length deck + 1 - S n)%nat with (length deck - n)%nat by lia.
      replace (S n - (length deck + 1))%nat with (n - length deck)%nat by lia.
      rewrite take_app_le, drop_app_le by lia.
      rewrite reverse_app. cbn [reverse app]. by rewrite <- !app_assoc.
Qed.

(** X19.  The loop of [main] that deals a hand of five cards takes the last
    five cards of the deck, the last one first, and overwrites the five
    cards of the hand with them.  When the deck has fewer than five cards
    it empties the deck and fills the rest of the hand with the invalid
    card [Card()]. *)
Theorem deal_takes_top_five deck cards :
  length cards = 5%nat →
  deal deck cards =
  (take (length deck - 5) deck,
   reverse (drop (length deck - 5) deck) ++
   replicate (5 - length deck) Card_default).
Proof. intros Hlen. unfold deal. by rewrite deal_loop_spec. Qed.

Lemma deal_takes_top_five_witness :
  deal Deck_cards (replicate 5 Card_default) =
  (take (length Deck_cards - 5) Deck_cards,
   reverse (drop (length Deck_cards - 5) Deck_cards) ++
   replicate (5 - length Deck_cards) Card_default).
Proof. apply (deal_takes_top_five Deck_cards). reflexivity. Defined.

(** ** From the cards in any order to the category *)

Lemma rank_count_SortHand r h : rank_count r (SortHand h) = rank_count r h.
Proof.
  destruct h as [[|c post]]; [reflexivity|].
  unfold rank_count, SortHand; cbn [Cards].
  replace (length (c :: post) - 1)%nat with (length post) by (simpl; lia).
  exact (f_equal length (SortHand_loop_stable r post [c])).
Qed.

Lemma one_suit_SortHand h : one_suit (SortHand h) ↔ one_suit h.
Proof. unfold one_suit. by setoid_rewrite SortHand_perm. Qed.

(** X11.  For the categories that are told by rank counts, sorting and then
    resolving a five-card hand given in any order yields the category of the
    rank counts of the cards as given: [Quad] exactly for four of a kind or
    more, [FullHouse] for a triple and a pair, and, on hands that are not of
    one suit, [Set_] for a triple without a pair, [TwoPair] for two pairs
    and [Pair] for one pair. *)
Theorem ResolveRank_SortHand_counts h r :
  length (Cards h) = 5%nat →
  r = Quad ∨ r = FullHouse ∨ r = Set_ ∨ r = TwoPair ∨ r = Pair →
  ResolveRank (SortHand h) = Some r ↔ category_signature r h.
Proof.
  intros Hlen Hr.
  assert (category_signature r (SortHand h) ↔ category_signature r h) as <-.
  { destruct Hr as [-> | [-> | [-> | [-> | ->]]]]; cbn [category_signature];
      unfold four_or_more, full_house, three_of_a_kind, two_pair, one_pair;
      repeat setoid_rewrite rank_count_SortHand;
      rewrite ?one_suit_SortHand; reflexivity. }
  split.
  - apply ResolveRank_sound; [by rewrite SortHand_length | apply SortHand_sorted].
  - apply ResolveRank_complete; [by rewrite SortHand_length | apply SortHand_sorted].
Qed.

Lemma ResolveRank_SortHand_counts_witness :
  ResolveRank (SortHand main_hand1) = Some FullHouse ↔
  category_signature FullHouse main_hand1.
Proof.
  apply (ResolveRank_SortHand_counts main_hand1 FullHouse);
    [reflexivity | right; left; reflexivity].
Defined.

(** ** Dealing from a new deck *)

(** X20.  Dealing a hand from a deck as the constructor leaves it removes
    the last five cards of the deck and nothing else: the 47 cards left,
    followed by the five cards dealt in reverse order, are the deck as it
    was.  The cards dealt are five different cards with rank values from 1
    to 13: never an ace, and possibly a card of rank 1. *)
Theorem deal_from_new_deck deck cards :
  Deck_constructed deck → length cards = 5%nat →
  ∃ deck' dealt,
    deal deck cards = (deck', dealt) ∧
    deck = deck' ++ reverse dealt ∧
    length deck' = 47%nat ∧ length dealt = 5%nat ∧ NoDup dealt ∧
    Forall (λ c, 1 ≤ RawSuit c ≤ 4 ∧ 1 ≤ RawRank c ≤ 13) dealt.
Proof.
  unfold Deck_constructed. intros Hperm Hlen.
  assert (length deck = 52%nat) as Hdeck by (by rewrite Hperm).
  assert (NoDup deck) as Hnd by (rewrite Hperm; apply NoDup_Deck_cards).
  unfold deal. rewrite deal_loop_spec by done. rewrite Hdeck.
  cbn [Nat.sub replicate]. rewrite take_0, app_nil_r. cbn [app].
  eexists _, _. split; [reflexivity|].
  assert (deck = take 47 deck ++ drop 47 deck) as Hsplit
    by (by rewrite take_drop).
  split; [by rewrite reverse_involutive|].
  split; [rewrite length_take; lia|].
  split; [rewrite length_reverse, length_drop; lia|].
  split.
  - rewrite reverse_Permutation. rewrite Hsplit in Hnd.
    by apply NoDup_app in Hnd as (_ & _ & ?).
  - rewrite reverse_Permutation. apply Forall_forall. intros c Hc.
    apply elem_of_Deck_cards. rewrite <- Hperm, Hsplit.
    apply elem_of_app. by right.
Qed.

Lemma deal_from_new_deck_witness :
  ∃ deck' dealt,
    deal Deck_cards (replicate 5 Card_default) = (deck', dealt) ∧
    Deck_cards = deck' ++ reverse dealt ∧
    length deck' = 47%nat ∧ length dealt = 5%nat ∧ NoDup dealt ∧
    Forall (λ c, 1 ≤ RawSuit c ≤ 4 ∧ 1 ≤ RawRank c ≤ 13) dealt.
Proof.
  apply (deal_from_new_deck Deck_cards (replicate 5 Card_default)).
  - unfold Deck_constructed. apply Permutation_refl.
  - reflexivity.
Defined.
